(** * Cursor prompt extractor: a shallow embedding of [debug_extraction.py]

    The development follows the Python module function by function.  Python
    strings are [string] (one [ascii] per character), the ledger dictionary
    is a [gmap string string], the file system and the clock are threaded
    explicitly through a world state, and exceptions are values of [exn]
    carried by a small error-and-state monad. *)

From Stdlib Require Import ZArith Lia List Ascii String Bool Sorted Permutation.
From stdpp Require Import gmap strings list.

Local Open Scope string_scope.
Local Open Scope list_scope.
Local Set Warnings "-register-all,-abstract-large-number".

(** ** Python string methods used by the module *)

(** [s.startswith(p)] and [s.endswith(p)]. *)
Definition startswith (p s : string) : bool := String.prefix p s.

Fixpoint endswith (p s : string) : bool :=
  if String.eqb p s then true
  else match s with
       | EmptyString => false
       | String _ s' => endswith p s'
       end.

(** [s[n:]]. *)
Fixpoint drop_chars (n : nat) (s : string) : string :=
  match n, s with
  | O, _ => s
  | S _, EmptyString => EmptyString
  | S k, String _ s' => drop_chars k s'
  end.

(** [s[:n]]. *)
Fixpoint take_chars (n : nat) (s : string) : string :=
  match n, s with
  | O, _ => EmptyString
  | S _, EmptyString => EmptyString
  | S k, String c s' => String c (take_chars k s')
  end.

(** [s.replace(old, new)] for a non-empty [old]: scan from the left, and at
    every position where [old] starts emit [new] and skip [old].  [skip]
    counts the characters of the current match still to be dropped. *)
Fixpoint str_replace_from (skip : nat) (old new s : string) : string :=
  match s with
  | EmptyString => EmptyString
  | String c s' =>
      match skip with
      | S k => str_replace_from k old new s'
      | O =>
          if String.prefix old s
          then new +:+ str_replace_from (String.length old - 1) old new s'
          else String c (str_replace_from 0 old new s')
      end
  end.

Definition str_replace (old new s : string) : string :=
  str_replace_from 0 old new s.

(** Characters [str.split()] treats as white space. *)
Definition is_space (c : ascii) : bool :=
  let n := nat_of_ascii c in
  (((9 <=? n) && (n <=? 13)) || ((28 <=? n) && (n <=? 32))
   || (n =? 133) || (n =? 160))%nat.

(** [s.split()]: the maximal runs of non-space characters. *)
Fixpoint split_ws_go (tok s : string) : list string :=
  match s with
  | EmptyString => if String.eqb tok "" then [] else [tok]
  | String c s' =>
      if is_space c
      then (if String.eqb tok "" then split_ws_go "" s'
            else tok :: split_ws_go "" s')
      else split_ws_go (tok +:+ String c "") s'
  end.

Definition split_ws (s : string) : list string := split_ws_go "" s.

(** [s.split(sep)] for a one-character separator. *)
Fixpoint split_on_go (sep : ascii) (tok s : string) : list string :=
  match s with
  | EmptyString => [tok]
  | String c s' =>
      if Ascii.eqb c sep then tok :: split_on_go sep "" s'
      else split_on_go sep (tok +:+ String c "") s'
  end.

Definition split_on (sep : ascii) (s : string) : list string :=
  split_on_go sep "" s.

(** ** [os.path] on POSIX paths *)

Definition slash : ascii := "/"%char.

(** [os.path.join(a, b)]. *)
Definition path_join (a b : string) : string :=
  if startswith "/" b then b
  else if String.eqb a "" || endswith "/" a then a +:+ b
  else a +:+ "/" +:+ b.

(** [(p[:i], p[i:])] for [i = p.rfind('/') + 1]. *)
Fixpoint split_last_slash (p : string) : string * string :=
  match p with
  | EmptyString => ("", "")
  | String c p' =>
      let '(h, t) := split_last_slash p' in
      if String.eqb h "" then
        if Ascii.eqb c slash then (String c "", p') else ("", String c p')
      else (String c h, t)
  end.

Definition basename (p : string) : string := snd (split_last_slash p).

Fixpoint rstrip_slash (s : string) : string :=
  match s with
  | EmptyString => ""
  | String c s' =>
      let r := rstrip_slash s' in
      if String.eqb r "" && Ascii.eqb c slash then "" else String c r
  end.

Definition dirname (p : string) : string :=
  let h := fst (split_last_slash p) in
  let r := rstrip_slash h in
  if String.eqb r "" then h else r.

(** The directories [os.makedirs(p)] makes sure exist: [p] and its
    ancestors. *)
Fixpoint dir_chain (fuel : nat) (p : string) : list string :=
  match fuel with
  | O => []
  | S k =>
      if String.eqb p "" then []
      else if String.eqb (dirname p) p then [p]
      else p :: dir_chain k (dirname p)
  end.

(** ** [datetime] and the three [strftime] formats of the module *)

Record datetime := mkdatetime {
  year : nat; month : nat; day : nat;
  hour : nat; minute : nat; second : nat
}.

Definition digit (n : nat) : ascii :=
  match n mod 10 with
  | 0 => "0" | 1 => "1" | 2 => "2" | 3 => "3" | 4 => "4"
  | 5 => "5" | 6 => "6" | 7 => "7" | 8 => "8" | _ => "9"
  end%char.

Definition fmt2 (n : nat) : string :=
  String (digit (n / 10)) (String (digit n) "").

Definition fmt4 (n : nat) : string := fmt2 (n / 100) +:+ fmt2 n.

(** [strftime('%Y-%m-%d %H:%M:%S')] *)
Definition strftime_iso (d : datetime) : string :=
  fmt4 (year d) +:+ "-" +:+ fmt2 (month d) +:+ "-" +:+ fmt2 (day d) +:+ " "
  +:+ fmt2 (hour d) +:+ ":" +:+ fmt2 (minute d) +:+ ":" +:+ fmt2 (second d).

(** [strftime('%Y%m%d')] *)
Definition strftime_Ymd (d : datetime) : string :=
  fmt4 (year d) +:+ fmt2 (month d) +:+ fmt2 (day d).

(** [strftime('%Y%m%d%H%M%S')] *)
Definition strftime_stamp (d : datetime) : string :=
  strftime_Ymd d +:+ fmt2 (hour d) +:+ fmt2 (minute d) +:+ fmt2 (second d).

(** ** Data *)

(** A parsed JSON value, as [json.loads] returns it.  An object is the list
    of its items. *)
Inductive json :=
| JNull
| JBool (b : bool)
| JNum (n : Z)
| JStr (s : string)
| JArr (items : list json)
| JObj (items : list (string * json)).

(** [bool(v)] *)
Definition truthy (v : json) : bool :=
  match v with
  | JNull => false
  | JBool b => b
  | JNum n => negb (n =? 0)%Z
  | JStr s => negb (String.eqb s "")
  | JArr l => match l with [] => false | _ => true end
  | JObj l => match l with [] => false | _ => true end
  end.

Fixpoint dict_get {A} (k : string) (d : list (string * A)) : option A :=
  match d with
  | [] => None
  | (k', v) :: d' => if String.eqb k k' then Some v else dict_get k d'
  end.

(** The dictionary appended to [results]: keys [date], [time], [prompt]. *)
Record Row := mkRow { row_date : string; row_time : string; row_prompt : string }.

(** A [pandas.DataFrame] with string cells: the column index, and one
    record per row giving each column's cell. *)
Record DataFrame := mkDataFrame {
  df_columns : list string;
  df_records : list (list (string * string))
}.

(** ** The world the module runs in *)

Inductive exn :=
| OSError | JSONDecodeError | DatabaseError | TypeError | KeyError
| IndexError | AttributeError | UnboundLocalError | ExcelWriteError.

Inductive result (A : Type) :=
| Ok (a : A)
| Raise (e : exn).
Arguments Ok {A} a.
Arguments Raise {A} e.

(** What a parser finds in a file under the save root: [json.load] succeeds
    exactly on a [JsonFile], [pd.read_excel] exactly on an [XlsxFile]. *)
Inductive file :=
| JsonFile (m : gmap string string)
| XlsxFile (df : DataFrame)
| CsvFile (df : DataFrame)
| RawFile (bytes : string).

(** What [sqlite3] finds in a [state.vscdb]: a file that is no database
    (every query raises), or a database, with its [ItemTable] if it has one
    (a query on a missing table raises). *)
Inductive database :=
| NotADatabase
| Tables (item_table : option (gmap string string)).

(** A workspace store [state.vscdb]: its modification time ([st_mtime], in
    the file system's integral unit, so that it is zero exactly when the
    float [os.path.getmtime] returns is) and its contents. *)
Record Store := mkStore {
  st_mtime : Z;
  st_db : database
}.

Inductive level := INFO | WARNING | ERROR.

Record World := mkWorld {
  files : gmap string file;          (* regular files written by the module *)
  dirs : gset string;                (* existing directories *)
  stores : gmap string Store;        (* the state.vscdb files, by path *)
  listing : gmap string (list string); (* os.listdir, by directory *)
  clock : nat;                       (* number of datetime.now() calls so far *)
  log : list (level * string)        (* what the logger received *)
}.

Definition set_files (f : gmap string file -> gmap string file) (w : World) : World :=
  mkWorld (f (files w)) (dirs w) (stores w) (listing w) (clock w) (log w).
Definition set_dirs (f : gset string -> gset string) (w : World) : World :=
  mkWorld (files w) (f (dirs w)) (stores w) (listing w) (clock w) (log w).
Definition tick (w : World) : World :=
  mkWorld (files w) (dirs w) (stores w) (listing w) (S (clock w)) (log w).
Definition add_log (l : level) (msg : string) (w : World) : World :=
  mkWorld (files w) (dirs w) (stores w) (listing w) (clock w) (log w ++ [(l, msg)]).

(** Library functions and host facts the module depends on. *)
Class Runtime := {
  HOME_DIR : string;                      (* os.path.expanduser("~") *)
  md5_hexdigest : string -> string;       (* hashlib.md5(s.encode()).hexdigest() *)
  json_loads : string -> option json;     (* None: JSONDecodeError *)
  fromtimestamp : Z -> datetime;          (* datetime.fromtimestamp, local zone *)
  now_at : nat -> datetime;               (* the k-th reading of datetime.now() *)
  unquote : string -> string;             (* urllib.parse.unquote *)
  name_char : ascii -> bool;              (* the class [\w\d\s_-] and Hangul *)
  resource_paths : string -> list string; (* group 1 of each "resource" match *)
  to_excel_ok : string -> DataFrame -> bool (* does DataFrame.to_excel succeed *)
}.

(** ** Computations: state and exceptions *)

Definition M (A : Type) : Type := World -> result A * World.

Definition ret {A} (a : A) : M A := fun w => (Ok a, w).
Definition raise {A} (e : exn) : M A := fun w => (Raise e, w).
Definition bind {A B} (c : M A) (k : A -> M B) : M B :=
  fun w => match c w with
           | (Ok a, w') => k a w'
           | (Raise e, w') => (Raise e, w')
           end.
(** [try: c  except Exception as e: h e] *)
Definition try_except {A} (c : M A) (h : exn -> M A) : M A :=
  fun w => match c w with
           | (Ok a, w') => (Ok a, w')
           | (Raise e, w') => h e w'
           end.

Notation "'let*' x ':=' c 'in' k" := (bind c (fun x => k))
  (at level 10, x name, c at level 100, k at level 200).
Notation "c ';;' k" := (bind c (fun _ => k))
  (at level 100, k at level 200, right associativity).

Definition logger (l : level) (msg : string) : M unit :=
  fun w => (Ok tt, add_log l msg w).

Definition datetime_now `{Runtime} : M datetime :=
  fun w => (Ok (now_at (clock w)), tick w).

(** [os.path.exists], [os.path.isdir], [os.path.getmtime] *)
Definition path_exists (p : string) : M bool :=
  fun w => (Ok (bool_decide (is_Some (files w !! p))
                || bool_decide (is_Some (stores w !! p))
                || bool_decide (p ∈ dirs w)), w).
Definition isdir (p : string) : M bool :=
  fun w => (Ok (bool_decide (p ∈ dirs w)), w).
Definition getmtime (p : string) : M Z :=
  fun w => match stores w !! p with
           | Some st => (Ok (st_mtime st), w)
           | None => (Raise OSError, w)
           end.

(** [os.listdir] *)
Definition listdir (p : string) : M (list string) :=
  fun w => match listing w !! p with
           | Some l => (Ok l, w)
           | None => (Raise OSError, w)
           end.

(** [os.makedirs(p, exist_ok=True)] *)
Definition makedirs (p : string) : M unit :=
  fun w =>
    if String.eqb p "" then (Raise OSError, w)
    else if bool_decide (is_Some (files w !! p)) then (Raise OSError, w)
    else (Ok tt, set_dirs (fun d => list_to_set (dir_chain (S (String.length p)) p) ∪ d) w).

(** [os.rename(src, dst)]: whatever [src] names moves to [dst]; a missing
    [src] raises. *)
Definition set_stores (f : gmap string Store -> gmap string Store) (w : World) : World :=
  mkWorld (files w) (dirs w) (f (stores w)) (listing w) (clock w) (log w).

Definition rename (src dst : string) : M unit :=
  fun w =>
    match files w !! src with
    | Some f => (Ok tt, set_files (fun fs => <[dst := f]> (delete src fs)) w)
    | None =>
        match stores w !! src with
        | Some st => (Ok tt, set_stores (fun ss => <[dst := st]> (delete src ss)) w)
        | None =>
            if bool_decide (src ∈ dirs w)
            then (Ok tt, set_dirs (fun d => {[dst]} ∪ (d ∖ {[src]})) w)
            else (Raise OSError, w)
        end
    end.

(** Creating or replacing the regular file [p]: its directory must exist
    (the empty directory name is the working directory) and [p] must not
    be a directory itself. *)
Definition write_file (p : string) (f : file) : M unit :=
  fun w =>
    if bool_decide (p ∈ dirs w) then (Raise OSError, w)
    else if String.eqb (dirname p) "" || bool_decide (dirname p ∈ dirs w)
    then (Ok tt, set_files (fun fs => <[p := f]> fs) w)
    else (Raise OSError, w).

(** ** Module constants *)

Section Extraction.
Context `{Runtime}.

Definition WORKSPACE_PATH : string :=
  path_join (path_join (path_join (path_join (path_join HOME_DIR "Library")
    "Application Support") "Cursor") "User") "workspaceStorage".
Definition STATE_DB_FILE : string := "state.vscdb".
Definition SAVE_PATH : string :=
  path_join (path_join (path_join HOME_DIR "Desktop") "RYJ") "saveprompt".
Definition PROCESSED_PROMPTS_FILE : string := "processed_prompts.json".

(** ** [extract_timestamp_from_data] *)

Inductive ts_source := DB_MOD_TIME | CURRENT_TIME.

(** [data] is ignored by the source, so it is not a parameter here.  The
    test [if db_mod_time:] is Python truthiness: [None] and [0.0] are both
    false. *)
Definition extract_timestamp_from_data (db_mod_time : option Z)
  : M (datetime * ts_source) :=
  match db_mod_time with
  | Some t =>
      if negb (t =? 0)%Z then ret (fromtimestamp t, DB_MOD_TIME)
      else let* n := datetime_now in ret (n, CURRENT_TIME)
  | None => let* n := datetime_now in ret (n, CURRENT_TIME)
  end.

(** ** The ledger: [load_processed_prompts], [save_processed_prompts] *)

(** [with open(p) as f: return json.load(f)] *)
Definition json_load (p : string) : M (gmap string string) :=
  fun w => match files w !! p with
           | Some (JsonFile m) => (Ok m, w)
           | Some _ => (Raise JSONDecodeError, w)
           | None => (Raise OSError, w)
           end.

Definition load_processed_prompts (save_path : string) : M (gmap string string) :=
  let processed_file := path_join save_path PROCESSED_PROMPTS_FILE in
  let* present := path_exists processed_file in
  if present then
    try_except (json_load processed_file)
      (fun _ =>
         logger ERROR "error while loading the processed prompt list" ;;
         let* still := path_exists processed_file in
         if still then
           let* t := datetime_now in
           let backup_file := processed_file +:+ ".bak." +:+ strftime_stamp t in
           rename processed_file backup_file ;;
           logger INFO "backed up the damaged processed_prompts.json" ;;
           ret ∅
         else ret ∅)
  else ret ∅.

Definition save_processed_prompts (processed_prompts : gmap string string)
    (save_path : string) : M unit :=
  makedirs save_path ;;
  let processed_file := path_join save_path PROCESSED_PROMPTS_FILE in
  try_except
    (write_file processed_file (JsonFile processed_prompts) ;;
     logger INFO "saved the processed prompt list")
    (fun _ =>
       logger ERROR "error while saving the processed prompt list" ;;
       let* present := path_exists processed_file in
       if present then
         try_except
           (let* t := datetime_now in
            let backup_file := processed_file +:+ ".error." +:+ strftime_stamp t in
            rename processed_file backup_file ;;
            logger INFO "backed up the file that failed to save")
           (fun _ => logger ERROR "error while creating the backup")
       else ret tt).

(** ** [find_today_folders] *)

Fixpoint scan_items (workspace_path : string) (items : list string)
    (today_folders : list string) : M (list string) :=
  match items with
  | [] => ret today_folders
  | item :: rest =>
      let item_path := path_join workspace_path item in
      let* d := isdir item_path in
      if d then
        let db_path := path_join item_path STATE_DB_FILE in
        let* e := path_exists db_path in
        if e then
          logger INFO "found folder" ;;
          scan_items workspace_path rest (today_folders ++ [item_path])
        else scan_items workspace_path rest today_folders
      else scan_items workspace_path rest today_folders
  end.

Definition find_today_folders (workspace_path : string) : M (list string) :=
  logger INFO "searching the Cursor data path" ;;
  let* today_folders :=
    try_except
      (let* items := listdir workspace_path in
       scan_items workspace_path items [])
      (fun _ => logger ERROR "error while scanning folders" ;; ret []) in
  logger INFO "folders found" ;;
  ret today_folders.

(** ** [extract_project_name] *)

(** [cursor.execute("SELECT value FROM ItemTable WHERE key = k")] followed
    by [cursor.fetchone()]. *)
Definition select_item (db_path key : string) : M (option string) :=
  fun w => match stores w !! db_path with
           | Some st =>
               match st_db st with
               | Tables (Some items) => (Ok (items !! key), w)
               | _ => (Raise DatabaseError, w)
               end
           | None => (Raise DatabaseError, w)
           end.

(** [cursor.execute("SELECT name FROM sqlite_master WHERE type='table'")] *)
Definition select_tables (db_path : string) : M unit :=
  fun w => match stores w !! db_path with
           | Some st =>
               match st_db st with
               | Tables _ => (Ok tt, w)
               | NotADatabase => (Raise DatabaseError, w)
               end
           | None => (Ok tt, w)
           end.

(** [re.sub(r'[^\w\d...\s_-]', '_', name)] *)
Fixpoint sanitize_name (name : string) : string :=
  match name with
  | EmptyString => EmptyString
  | String c s => String (if name_char c then c else "_"%char) (sanitize_name s)
  end.

(** The loop over the [resource] matches of the editor state: the first
    path with more than one segment gives [parts[1]]. *)
Fixpoint first_directory (paths : list string) (project_name : string) : string :=
  match paths with
  | [] => project_name
  | file_path :: rest =>
      if String.eqb file_path "" then first_directory rest project_name
      else match split_on slash file_path with
           | _ :: p1 :: _ => p1
           | _ => first_directory rest project_name
           end
  end.

Definition extract_project_name (folder_path db_path : string) : M string :=
  let* found :=
    try_except
      (let* result := select_item db_path "debug.selectedroot" in
       match result with
       | Some project_path =>
           logger INFO "project name from debug.selectedroot" ;;
           let project_path := unquote project_path in
           let project_path :=
             if startswith "file:///" project_path
             then drop_chars 8 project_path else project_path in
           let project_path :=
             if endswith ".vscode/launch.json" project_path
             then str_replace "/.vscode/launch.json" "" project_path
             else project_path in
           let project_name := basename project_path in
           let* project_name :=
             if String.eqb project_name "" || String.eqb project_name "launch.json"
                || String.eqb project_name "settings.json"
             then
               let* result := select_item db_path "memento/editorpart" in
               match result with
               | Some editor_state =>
                   ret (first_directory (resource_paths editor_state) project_name)
               | None => ret project_name
               end
             else ret project_name in
           if negb (String.eqb project_name "") then
             logger INFO "cleaned project name" ;;
             ret (Some (sanitize_name project_name))
           else ret None
       | None => ret None
       end)
      (fun _ => logger ERROR "project name extraction error" ;; ret None) in
  match found with
  | Some project_name => ret project_name
  | None =>
      logger INFO "no project name found, using the folder name" ;;
      ret (basename folder_path)
  end.

(** ** [process_database] *)

(** The locals the loop over the prompts updates. *)
Record loop_state := mkLoop {
  results : list Row;
  processed_prompts : gmap string string;
  new_processed_count : nat
}.

(** One iteration of [for prompt in prompts_data].  Every statement that
    can raise comes before the first update of a local, so an iteration
    that raises leaves the locals as it found them. *)
Definition prompt_step (db_mod_time : Z) (today : string) (prompt : json)
    (st : loop_state) : M loop_state :=
  match prompt with
  | JObj items =>
      match dict_get "text" items with
      | None => logger WARNING "prompt has no text field" ;; ret st
      | Some (JStr prompt_text) =>
          let prompt_id := md5_hexdigest prompt_text in
          logger INFO "prompt id created (MD5 of the text)" ;;
          match processed_prompts st !! prompt_id with
          | Some processed_date =>
              logger INFO "skipping an already processed prompt" ;; ret st
          | None =>
              let* ts := extract_timestamp_from_data (Some db_mod_time) in
              let db_date_time := strftime_iso (fst ts) in
              match split_ws db_date_time with
              | date_str :: time_str :: _ =>
                  let db_date := str_replace "-" "" date_str in
                  if negb (String.eqb db_date today) then
                    logger INFO "prompt date is not today, skipping" ;; ret st
                  else
                    logger INFO "prompt data added" ;;
                    ret (mkLoop
                           (results st ++ [mkRow date_str time_str prompt_text])
                           (<[prompt_id := today]> (processed_prompts st))
                           (S (new_processed_count st)))
              | _ => raise IndexError
              end
          end
      | Some _ => raise AttributeError   (* no [encode] on a non-string *)
      end
  | _ => logger WARNING "prompt data is not a dictionary" ;; ret st
  end.

(** The loop; it stops at the first iteration that raises and hands back
    the locals together with the exception. *)
Fixpoint for_prompts (db_mod_time : Z) (today : string) (prompts : list json)
    (st : loop_state) (w : World) : (loop_state * option exn) * World :=
  match prompts with
  | [] => ((st, None), w)
  | prompt :: rest =>
      match prompt_step db_mod_time today prompt st w with
      | (Ok st', w') => for_prompts db_mod_time today rest st' w'
      | (Raise e, w') => ((st, Some e), w')
      end
  end.

(** What [for prompt in prompts_data] iterates over. *)
Definition iter_items (v : json) : list json :=
  match v with
  | JArr l => l
  | JStr s => map (fun c => JStr (String c "")) (list_ascii_of_string s)
  | JObj items => map (fun kv => JStr (fst kv)) items
  | _ => []
  end.

(** Lines 255-273: the queries and the parse of [aiService.prompts]. *)
Definition read_prompts (db_path : string) : M json :=
  select_tables db_path ;;
  logger INFO "table list" ;;
  let* row := select_item db_path "aiService.prompts" in
  match row with
  | Some v =>
      if negb (String.eqb v "") then
        match json_loads v with
        | Some prompts_data =>
            match prompts_data with
            | JNull | JBool _ | JNum _ => raise TypeError  (* len() *)
            | _ => logger INFO "number of prompts" ;; ret prompts_data
            end
        | None => logger ERROR "prompt data parse error" ;; ret (JArr [])
        end
      else ret (JArr [])
  | None => ret (JArr [])
  end.

(** [str(prompts_data[0])] *)
Definition first_prompt (prompts_data : json) : M unit :=
  match prompts_data with
  | JObj _ => raise KeyError
  | _ => logger INFO "first prompt example"
  end.

(** How the [try] block stands when the loop is reached. *)
Inductive before_loop :=
| EarlyReturn
| Failed
| Ready (prompts_data : json) (today : string) (loaded : gmap string string).

(** Lines 255-288: from the queries to the loaded ledger. *)
Definition reach_loop (db_path : string) : M before_loop :=
  let* prompts_data := read_prompts db_path in
  if negb (truthy prompts_data) then
    logger WARNING "no prompt data" ;; ret EarlyReturn
  else
    first_prompt prompts_data ;;
    let* n := datetime_now in
    let today := strftime_Ymd n in
    logger INFO "today's date" ;;
    let* loaded := load_processed_prompts SAVE_PATH in
    logger INFO "number of already processed prompt ids" ;;
    ret (Ready prompts_data today loaded).

(** The single [try] block of the source is cut where its locals change:
    up to [os.path.getmtime] ([project_name] still unbound), up to the
    loop ([results] empty), the loop, and the save after it.  Each part has
    the same handler, which logs and falls through to the final [return]. *)
Definition process_database (folder_path : string) : M (string * list Row) :=
  logger INFO "database connection succeeded" ;;
  logger INFO "database analysis started" ;;
  let db_path := path_join folder_path STATE_DB_FILE in
  let* mtime :=
    try_except (let* t := getmtime db_path in ret (Some t))
      (fun _ => logger ERROR "error while processing the database" ;; ret None) in
  match mtime with
  | None =>
      logger INFO "number of processed items" ;;
      raise UnboundLocalError   (* [return project_name, results] *)
  | Some db_mod_time =>
      let* project_name := extract_project_name folder_path db_path in
      let* reached :=
        try_except (reach_loop db_path)
          (fun _ => logger ERROR "error while processing the database" ;; ret Failed) in
      match reached with
      | EarlyReturn => ret (project_name, [])
      | Failed =>
          logger INFO "number of processed items" ;; ret (project_name, [])
      | Ready prompts_data today loaded =>
          let* out := (fun w => let '(o, w') := for_prompts db_mod_time today
                                     (iter_items prompts_data) (mkLoop [] loaded 0) w
                                in (Ok o, w')) in
          match out with
          | (st, Some _) =>
              logger ERROR "error while processing the database" ;;
              logger INFO "number of processed items" ;;
              ret (project_name, results st)
          | (st, None) =>
              try_except
                (logger INFO "number of newly processed prompt ids" ;;
                 save_processed_prompts (processed_prompts st) SAVE_PATH)
                (fun _ => logger ERROR "error while processing the database") ;;
              logger INFO "number of processed items" ;;
              ret (project_name, results st)
          end
      end
  end.

(** ** The [pandas] operations [save_to_excel] uses *)

Definition cell (col : string) (r : list (string * string)) : string :=
  match dict_get col r with
  | Some v => v
  | None => ""
  end.

Definition str_in (x : string) (l : list string) : bool :=
  existsb (String.eqb x) l.

(** [pd.DataFrame(data)] for a list of [date]/[time]/[prompt] dictionaries *)
Definition frame_of_rows (data : list Row) : DataFrame :=
  mkDataFrame ["date"; "time"; "prompt"]
    (map (fun r => [("date", row_date r); ("time", row_time r);
                    ("prompt", row_prompt r)]) data).

(** [df[col] = ''] for a column the frame does not have *)
Definition set_empty_column (col : string) (df : DataFrame) : DataFrame :=
  mkDataFrame (df_columns df ++ [col])
    (map (fun r => r ++ [(col, "")]) (df_records df)).

(** [df.drop(columns=[col])] *)
Definition drop_column (col : string) (df : DataFrame) : DataFrame :=
  mkDataFrame
    (List.filter (fun c => negb (String.eqb c col)) (df_columns df))
    (map (List.filter (fun kv => negb (String.eqb (fst kv) col))) (df_records df)).

(** [pd.concat([a, b])]: the columns of [a], then those only [b] has; the
    records of [a], then those of [b]. *)
Definition pd_concat (a b : DataFrame) : DataFrame :=
  mkDataFrame
    (df_columns a
     ++ List.filter (fun c => negb (str_in c (df_columns a))) (df_columns b))
    (df_records a ++ df_records b).

Definition key3 (r : list (string * string)) : string * string * string :=
  (cell "date" r, cell "time" r, cell "prompt" r).

Definition key3_eqb (a b : string * string * string) : bool :=
  let '(a1, a2, a3) := a in
  let '(b1, b2, b3) := b in
  String.eqb a1 b1 && String.eqb a2 b2 && String.eqb a3 b3.

(** [df.drop_duplicates(subset=['date', 'time', 'prompt'])]: the first
    record of every key is kept. *)
Fixpoint drop_duplicates_go (seen : list (string * string * string))
    (rs : list (list (string * string))) : list (list (string * string)) :=
  match rs with
  | [] => []
  | r :: rs' =>
      if existsb (key3_eqb (key3 r)) seen then drop_duplicates_go seen rs'
      else r :: drop_duplicates_go (key3 r :: seen) rs'
  end.

Definition drop_duplicates (df : DataFrame) : DataFrame :=
  mkDataFrame (df_columns df) (drop_duplicates_go [] (df_records df)).

(** The order of [sort_values(by=['date', 'time'])]: [date] first, [time]
    among equal dates, strings compared character by character. *)
Definition key_le (a b : list (string * string)) : bool :=
  match String.compare (cell "date" a) (cell "date" b) with
  | Lt => true
  | Gt => false
  | Eq => String.leb (cell "time" a) (cell "time" b)
  end.

Fixpoint insert_by_key (r : list (string * string))
    (l : list (list (string * string))) : list (list (string * string)) :=
  match l with
  | [] => [r]
  | x :: l' => if key_le r x then r :: x :: l' else x :: insert_by_key r l'
  end.

(** A stable sort, as the multi-key [sort_values] is. *)
Fixpoint sort_records (l : list (list (string * string)))
  : list (list (string * string)) :=
  match l with
  | [] => []
  | r :: l' => insert_by_key r (sort_records l')
  end.

Definition sort_values (df : DataFrame) : DataFrame :=
  mkDataFrame (df_columns df) (sort_records (df_records df)).

(** [df[cols]] *)
Definition select_columns (cols : list string) (df : DataFrame) : DataFrame :=
  mkDataFrame cols
    (map (fun r => map (fun c => (c, cell c r)) cols) (df_records df)).

(** [pd.DataFrame(data, columns=cols)] *)
Definition frame_of_rows_columns (data : list Row) (cols : list string) : DataFrame :=
  select_columns cols (frame_of_rows data).



Definition read_excel (p : string) : M DataFrame :=
  fun w => match files w !! p with
           | Some (XlsxFile df) => (Ok df, w)
           | _ => (Raise OSError, w)
           end.

Definition to_excel (p : string) (df : DataFrame) : M unit :=
  fun w => if to_excel_ok p df then write_file p (XlsxFile df) w
           else (Raise ExcelWriteError, w).

Definition to_csv (p : string) (df : DataFrame) : M unit :=
  write_file p (CsvFile df).

(** ** [save_to_excel] *)

(** The class [[\x00-\x08\x0B\x0C\x0E-\x1F\x7F]] *)
Definition is_control (c : ascii) : bool :=
  let n := nat_of_ascii c in
  ((n <=? 8) || (n =? 11) || (n =? 12) || ((14 <=? n) && (n <=? 31))
   || (n =? 127))%nat.

(** [re.sub(r'[\x00-\x08\x0B\x0C\x0E-\x1F\x7F]', '', s)] *)
Fixpoint strip_control (s : string) : string :=
  match s with
  | EmptyString => EmptyString
  | String c s' =>
      if is_control c then strip_control s' else String c (strip_control s')
  end.

Definition max_cell_length : nat := 32700.

(** What the loop over the keys of an item does to one string value. *)
Definition sanitize_cell (s : string) : string :=
  let s := strip_control s in
  if (max_cell_length <? String.length s)%nat
  then take_chars max_cell_length s else s.

Definition sanitize_item (item : Row) : Row :=
  mkRow (sanitize_cell (row_date item)) (sanitize_cell (row_time item))
        (sanitize_cell (row_prompt item)).

(** The column handling of the update branch (lines 405-413). *)
Definition add_missing_columns (columns : list string) (existing_df : DataFrame)
  : DataFrame :=
  fold_left (fun df col =>
               if str_in col (df_columns df) then df else set_empty_column col df)
            columns existing_df.

Definition drop_other_columns (columns : list string) (existing_df : DataFrame)
  : DataFrame :=
  fold_left (fun df col =>
               if str_in col columns then df else drop_column col df)
            (df_columns existing_df) existing_df.

(** The frame the update branch writes (lines 403-422). *)
Definition combine (columns : list string) (existing_df : DataFrame)
    (data : list Row) : DataFrame :=
  let new_df := frame_of_rows data in
  let existing_df := add_missing_columns columns existing_df in
  let existing_df := drop_other_columns columns existing_df in
  let combined_df := drop_duplicates (pd_concat existing_df new_df) in
  let combined_df := sort_values combined_df in
  select_columns columns combined_df.

(** [try: df.to_excel(file_path) except: df.to_csv(csv_path); return csv_path]
    followed by the [return file_path] both branches fall through to. *)
Definition write_frame (file_path : string) (df : DataFrame) : M (option string) :=
  try_except
    (to_excel file_path df ;;
     logger INFO "file written" ;;
     ret (Some file_path))
    (fun _ =>
       logger ERROR "excel save error" ;;
       let csv_path := str_replace ".xlsx" ".csv" file_path in
       to_csv csv_path df ;;
       logger INFO "saved as CSV instead" ;;
       ret (Some csv_path)).

Definition save_to_excel (project_name : string) (data : list Row)
    (save_path : string) : M (option string) :=
  match data with
  | [] => logger WARNING "no data to save, no excel file is created" ;; ret None
  | first :: _ =>
      try_except
        (let date_str := str_replace "-" "" (row_date first) in
         let project_folder := path_join save_path project_name in
         makedirs project_folder ;;
         logger INFO "project folder created" ;;
         let file_name := project_name +:+ "_" +:+ date_str +:+ "_prompt.xlsx" in
         let file_path := path_join project_folder file_name in
         logger INFO "excel file path" ;;
         let columns := ["date"; "time"; "prompt"] in
         let data := map sanitize_item data in
         let* present := path_exists file_path in
         if present then
           logger INFO "existing file found, updating" ;;
           let* existing_df := read_excel file_path in
           write_frame file_path (combine columns existing_df data)
         else
           logger INFO "creating a new excel file" ;;
           write_frame file_path (frame_of_rows_columns data columns))
        (fun _ => logger ERROR "error while saving to excel" ;; ret None)
  end.

(** ** [extract_prompts] *)

(** The loop [for folder_path in today_folders]. *)
Fixpoint process_folders (save_path : string) (today_folders : list string)
    (result_files : list string) : M (list string) :=
  match today_folders with
  | [] => ret result_files
  | folder_path :: rest =>
      logger INFO "folder processing started" ;;
      let* pd := process_database folder_path in
      let '(project_name, data) := pd in
      match data with
      | [] =>
          logger WARNING "no data to save" ;;
          process_folders save_path rest result_files
      | _ =>
          let* file_path := save_to_excel project_name data save_path in
          match file_path with
          | Some p =>
              if negb (String.eqb p "") then
                logger INFO "file saved" ;;
                process_folders save_path rest (result_files ++ [p])
              else
                logger ERROR "file save failed" ;;
                process_folders save_path rest result_files
          | None =>
              logger ERROR "file save failed" ;;
              process_folders save_path rest result_files
          end
      end
  end.

Definition extract_prompts (workspace_path save_path : string) : M (list string) :=
  makedirs save_path ;;
  logger INFO "save path created" ;;
  let* today_folders := find_today_folders workspace_path in
  match today_folders with
  | [] => logger WARNING "no folder to process" ;; ret []
  | _ => process_folders save_path today_folders []
  end.

(** ** [main] *)

(** The loop [for file_path in result_files: logger.info(...)]. *)
Fixpoint log_files (result_files : list string) : M unit :=
  match result_files with
  | [] => ret tt
  | _ :: rest => logger INFO "  - saved file" ;; log_files rest
  end.

Definition main : M unit :=
  try_except
    (logger INFO "Cursor prompt extraction started" ;;
     let* result_files := extract_prompts WORKSPACE_PATH SAVE_PATH in
     match result_files with
     | [] => logger WARNING "no file was saved"
     | _ => logger INFO "prompt extraction done" ;; log_files result_files
     end ;;
     logger INFO "prompt extraction finished")
    (fun _ => logger ERROR "error during prompt extraction").

End Extraction.

(** * Vocabulary of the statements *)

Section Vocabulary.
Context `{Runtime}.

(** [w'] has the files, directories, stores and listings of [w]: only the
    log and the clock may differ. *)
Definition same_fs (w w' : World) : Prop :=
  files w' = files w /\ dirs w' = dirs w /\ stores w' = stores w
  /\ listing w' = listing w.

Definition quiet {A} (c : M A) : Prop :=
  forall w r w', c w = (r, w') -> same_fs w w'.

(** [c] returns, whatever the world. *)
Definition total {A} (c : M A) : Prop :=
  forall w, exists a w', c w = (Ok a, w').

(** Computations after which a given path holds what it held, or nothing. *)
Definition keeps_or_drops {A} (p : string) (c : M A) : Prop :=
  forall w r w', c w = (r, w') ->
    files w' !! p = files w !! p \/ files w' !! p = None.

(** What lines 264-273 of [process_database] make of a store: the parsed
    value of [aiService.prompts], the empty list when the key is absent,
    its value empty or unparsable, and an exception when the store cannot
    be queried or the value has no length. *)
Definition stored_prompts `{Runtime} (st : option Store) : result json :=
  match st with
  | Some (mkStore _ (Tables (Some items))) =>
      match items !! "aiService.prompts" with
      | Some v =>
          if String.eqb v "" then Ok (JArr [])
          else match json_loads v with
               | Some (JNull | JBool _ | JNum _) => Raise TypeError
               | Some prompts_data => Ok prompts_data
               | None => Ok (JArr [])
               end
      | None => Ok (JArr [])
      end
  | _ => Raise DatabaseError
  end.

(** A prompt record the loop can handle: anything but a dictionary whose
    [text] is not a string. *)
Definition wellformed_prompt (p : json) : bool :=
  match p with
  | JObj items =>
      match dict_get "text" items with
      | Some (JStr _) | None => true
      | Some _ => false
      end
  | _ => true
  end.

(** Where the ledger of a save root lives. *)
Definition ledger_file (save_path : string) : string :=
  path_join save_path PROCESSED_PROMPTS_FILE.

(** The save root is usable: it and its ancestors are directories, and the
    ledger's path in it is free or holds a regular file. *)
Definition save_root_ready (w : World) : Prop :=
  files w !! SAVE_PATH = None
  /\ forallb (fun d => bool_decide (d ∈ dirs w))
       (dir_chain (S (String.length SAVE_PATH)) SAVE_PATH) = true
  /\ (ledger_file SAVE_PATH ∉ dirs w)
  /\ stores w !! ledger_file SAVE_PATH = None
  /\ (dirname (ledger_file SAVE_PATH) ∈ dirs w).


(** The text of a record the loop looks at. *)
Definition prompt_text (p : json) : option string :=
  match p with
  | JObj items =>
      match dict_get "text" items with
      | Some (JStr text) => Some text
      | _ => None
      end
  | _ => None
  end.

(** The two halves of [strftime('%Y-%m-%d %H:%M:%S')]. *)
Definition iso_date (d : datetime) : string :=
  fmt4 (year d) +:+ "-" +:+ fmt2 (month d) +:+ "-" +:+ fmt2 (day d).
Definition iso_time (d : datetime) : string :=
  fmt2 (hour d) +:+ ":" +:+ fmt2 (minute d) +:+ ":" +:+ fmt2 (second d).

(** No character of the string is white space. *)
Fixpoint no_space (s : string) : bool :=
  match s with
  | EmptyString => true
  | String c s' => negb (is_space c) && no_space s'
  end.

(** Shapes of date strings. *)
Definition is_digit (c : ascii) : bool :=
  let n := nat_of_ascii c in ((48 <=? n) && (n <=? 57))%nat.



(** [YYYY-MM-DD]: digits with a dash after the year and after the month. *)
Definition is_iso_date (s : string) : bool :=
  match s with
  | String y1 (String y2 (String y3 (String y4 (String d1
      (String m1 (String m2 (String d2 (String a1 (String a2 EmptyString))))))))) =>
      is_digit y1 && is_digit y2 && is_digit y3 && is_digit y4
      && Ascii.eqb d1 "-" && is_digit m1 && is_digit m2
      && Ascii.eqb d2 "-" && is_digit a1 && is_digit a2
  | _ => false
  end.

#[global] Instance Row_eq_dec : EqDecision Row.
Proof. solve_decision. Defined.




(** Every record of the frame has exactly the frame's columns, once each. *)
Definition frame_wf (df : DataFrame) : Prop :=
  List.NoDup (df_columns df)
  /\ Forall (fun r => map fst r = df_columns df) (df_records df).

End Vocabulary.

(** * A concrete runtime and worlds for evaluation *)

Definition demo_prompts : list (string * json) :=
  [ ("AB", JArr [JObj [("text", JStr "a")]; JObj [("text", JStr "b")]]);
    ("A", JArr [JObj [("text", JStr "a")]]);
    ("MIXED", JArr [JObj [("text", JStr "a")]; JObj [("text", JNum 7)]]) ].

(** Local time is UTC; only the epoch day and January 2024 are needed. *)
Definition demo_fromtimestamp (t : Z) : datetime :=
  let s := Z.to_nat (t mod 86400) in
  let d := (t / 86400)%Z in
  if (d =? 0)%Z then mkdatetime 1970 1 1 (s / 3600) ((s / 60) mod 60) (s mod 60)
  else mkdatetime 2024 1 (Z.to_nat (d - 19722)) (s / 3600) ((s / 60) mod 60) (s mod 60).

Definition demo_runtime (excel_ok : bool) : Runtime := {|
  HOME_DIR := "/home/u";
  md5_hexdigest := fun s => "md5:" +:+ s;
  json_loads := fun s => dict_get s demo_prompts;
  fromtimestamp := demo_fromtimestamp;
  now_at := fun k => mkdatetime 2024 1 1 12 0 k;
  unquote := fun s => s;
  name_char := fun c => negb (Ascii.eqb c "."%char || Ascii.eqb c "/"%char);
  resource_paths := fun _ => [];
  to_excel_ok := fun _ _ => excel_ok
|}.

(** 2024-01-01 10:00:00 UTC *)
Definition t_today : Z := 1704103200.

Definition demo_store (mtime : Z) (prompts : string) : Store :=
  mkStore mtime (Tables (Some {[ "aiService.prompts" := prompts ]})).

Definition demo_world (ledger_files : gmap string file)
    (ws : gmap string Store) : World :=
  mkWorld ledger_files {[ "/ws"; "/ws/A"; "/ws/B" ]} ws
    {[ "/ws" := ["A"; "B"] ]} 0 [].


Definition demo_ledger_path : string :=
  "/home/u/Desktop/RYJ/saveprompt/processed_prompts.json".

(** A ledger that already holds the id of the text [a], under an old date. *)
Definition old_ledger : gmap string string := {[ "md5:a" := "19990101" ]}.

(** One workspace, modified today, with the prompts [a] and [b]. *)
Definition world_ab (ledger_files : gmap string file) : World :=
  demo_world ledger_files {[ "/ws/A/state.vscdb" := demo_store t_today "AB" ]}.

(** Two workspaces were discovered, but by the time the first is processed
    its store is gone; the second holds the prompts [a] and [b]. *)
Definition world_vanished : World :=
  demo_world ∅ {[ "/ws/B/state.vscdb" := demo_store t_today "AB" ]}.

(** One workspace whose store carries the modification time 0, the epoch. *)
Definition world_epoch : World :=
  demo_world ∅ {[ "/ws/A/state.vscdb" := demo_store 0 "A" ]}.

Definition row_x : Row := mkRow "2024-01-01" "10:00:00" "x".

(** The merge example of the specification. *)
Definition row_a : Row := mkRow "2024-01-01" "10:00:00" "a".
Definition row_b : Row := mkRow "2024-01-01" "10:00:01" "b".

Definition table_path : string := "/out/p/p_20240101_prompt.xlsx".

Definition world_table (existing : DataFrame) : World :=
  mkWorld {[ table_path := XlsxFile existing ]} {[ "/"; "/out"; "/out/p" ]}
    ∅ ∅ 0 [].

(** An older table: no [time] column, and a [response] column. *)
Definition old_format : DataFrame :=
  mkDataFrame ["date"; "prompt"; "response"]
    [[("date", "2024-01-01"); ("prompt", "a"); ("response", "r")]].


(** One workspace, with the save root and its ancestors in place. *)
Definition world_ready (ledger_files : gmap string file)
    (ws : gmap string Store) : World :=
  mkWorld ledger_files
    {[ "/"; "/home"; "/home/u"; "/home/u/Desktop"; "/home/u/Desktop/RYJ";
       "/home/u/Desktop/RYJ/saveprompt"; "/ws"; "/ws/A" ]}
    ws {[ "/ws" := ["A"] ]} 0 [].

(** 2024-01-02 10:00:00 UTC *)
Definition t_tomorrow : Z := 1704189600.

(** A save root with nothing in it yet. *)
Definition world_out : World :=
  mkWorld ∅ {[ "/"; "/out" ]} ∅ ∅ 0 [].
(** * Properties *)

(** ** The monad, and computations that leave the file system alone *)

Section Facts.
Context `{Runtime}.

Lemma same_fs_refl w : same_fs w w.
Proof. by repeat split. Qed.

Lemma same_fs_trans w1 w2 w3 : same_fs w1 w2 -> same_fs w2 w3 -> same_fs w1 w3.
Proof.
  intros (a1 & a2 & a3 & a4) (b1 & b2 & b3 & b4).
  repeat split; congruence.
Qed.

Lemma quiet_ret {A} (a : A) : quiet (ret a).
Proof. intros w r w' [= <- <-]. apply same_fs_refl. Qed.

Lemma quiet_raise {A} e : quiet (@raise A e).
Proof. intros w r w' [= <- <-]. apply same_fs_refl. Qed.

Lemma quiet_logger l msg : quiet (logger l msg).
Proof. intros w r w' [= <- <-]. by repeat split. Qed.

Lemma quiet_datetime_now : quiet datetime_now.
Proof. intros w r w' [= <- <-]. by repeat split. Qed.

Lemma quiet_bind {A B} (c : M A) (k : A -> M B) :
  quiet c -> (forall a, quiet (k a)) -> quiet (bind c k).
Proof.
  intros Hc Hk w r w'. unfold bind.
  destruct (c w) as [[a|e] w1] eqn:E; intros E'.
  - eapply same_fs_trans; [eapply Hc, E | eapply Hk, E'].
  - injection E' as <- <-. eapply Hc, E.
Qed.

Lemma quiet_try_except {A} (c : M A) h :
  quiet c -> (forall e, quiet (h e)) -> quiet (try_except c h).
Proof.
  intros Hc Hh w r w'. unfold try_except.
  destruct (c w) as [[a|e] w1] eqn:E; intros E'.
  - injection E' as <- <-. eapply Hc, E.
  - eapply same_fs_trans; [eapply Hc, E | eapply Hh, E'].
Qed.

Lemma quiet_path_exists p : quiet (path_exists p).
Proof. intros w r w' [= <- <-]. apply same_fs_refl. Qed.

Lemma quiet_isdir p : quiet (isdir p).
Proof. intros w r w' [= <- <-]. apply same_fs_refl. Qed.

Lemma quiet_getmtime p : quiet (getmtime p).
Proof.
  intros w r w'. unfold getmtime.
  destruct (stores w !! p); intros [= <- <-]; apply same_fs_refl.
Qed.

Lemma quiet_select_item p k : quiet (select_item p k).
Proof.
  intros w r w'. unfold select_item.
  destruct (stores w !! p) as [st|]; [destruct (st_db st) as [|[t|]]|];
    intros [= <- <-]; apply same_fs_refl.
Qed.

Lemma quiet_select_tables p : quiet (select_tables p).
Proof.
  intros w r w'. unfold select_tables.
  destruct (stores w !! p) as [st|]; [destruct (st_db st)|];
    intros [= <- <-]; apply same_fs_refl.
Qed.

Lemma total_ret {A} (a : A) : total (ret a).
Proof. intros w. by exists a, w. Qed.

Lemma total_logger l msg : total (logger l msg).
Proof. intros w. by eexists _, _. Qed.

Lemma total_bind {A B} (c : M A) (k : A -> M B) :
  total c -> (forall a, total (k a)) -> total (bind c k).
Proof.
  intros Hc Hk w. destruct (Hc w) as (a & w1 & E).
  destruct (Hk a w1) as (b & w2 & E'). exists b, w2.
  unfold bind. by rewrite E.
Qed.

Lemma total_try_except {A} (c : M A) h :
  (forall e, total (h e)) -> total (try_except c h).
Proof.
  intros Hh w. unfold try_except.
  destruct (c w) as [[a|e] w1]; [by exists a, w1 | apply Hh].
Qed.

Ltac quiet_step :=
  first
    [ apply quiet_ret | apply quiet_raise | apply quiet_logger
    | apply quiet_datetime_now | apply quiet_path_exists | apply quiet_isdir
    | apply quiet_getmtime | apply quiet_select_item | apply quiet_select_tables
    | apply quiet_bind; [| intros ?] | apply quiet_try_except; [| intros ?]
    | match goal with
      | |- quiet (if ?b then _ else _) => destruct b
      | |- quiet (match ?x with _ => _ end) => destruct x
      end ].

Ltac quiet_tac := cbv zeta; repeat quiet_step.

Lemma quiet_extract_project_name folder db : quiet (extract_project_name folder db).
Proof. unfold extract_project_name. quiet_tac. Qed.

Lemma total_extract_project_name folder db : total (extract_project_name folder db).
Proof.
  unfold extract_project_name. apply total_bind.
  - apply total_try_except. intros e. apply total_bind; [apply total_logger|].
    intros _. apply total_ret.
  - intros [pn|]; [apply total_ret|].
    apply total_bind; [apply total_logger | intros _; apply total_ret].
Qed.

Lemma quiet_read_prompts db : quiet (read_prompts db).
Proof. unfold read_prompts. quiet_tac. Qed.

Lemma quiet_first_prompt v : quiet (first_prompt v).
Proof. unfold first_prompt. quiet_tac. Qed.

Lemma quiet_extract_timestamp t : quiet (extract_timestamp_from_data t).
Proof. unfold extract_timestamp_from_data. quiet_tac. Qed.

Lemma quiet_prompt_step mt today p st : quiet (prompt_step mt today p st).
Proof.
  unfold prompt_step. quiet_tac; apply quiet_extract_timestamp.
Qed.

Lemma for_prompts_same_fs mt today ps : forall st w out w',
  for_prompts mt today ps st w = (out, w') -> same_fs w w'.
Proof.
  induction ps as [|p ps IH]; simpl; intros st w out w'.
  - intros [= <- <-]. apply same_fs_refl.
  - destruct (prompt_step mt today p st w) as [[st1|e] w1] eqn:E.
    + intros E'. eapply same_fs_trans; [eapply quiet_prompt_step, E | eapply IH, E'].
    + intros [= <- <-]. eapply quiet_prompt_step, E.
Qed.

(** ** Inversion of the monad *)

Lemma bind_inv {A B} (c : M A) (k : A -> M B) w r w' :
  bind c k w = (r, w') ->
  (exists a w1, c w = (Ok a, w1) /\ k a w1 = (r, w'))
  \/ (exists e, c w = (Raise e, w') /\ r = Raise e).
Proof.
  unfold bind. destruct (c w) as [[a|e] w1]; intros E.
  - left. by exists a, w1.
  - right. injection E as <- <-. by exists e.
Qed.

Lemma try_except_inv {A} (c : M A) h w r w' :
  try_except c h w = (r, w') ->
  (exists a, c w = (Ok a, w') /\ r = Ok a)
  \/ (exists e w1, c w = (Raise e, w1) /\ h e w1 = (r, w')).
Proof.
  unfold try_except. destruct (c w) as [[a|e] w1]; intros E.
  - left. injection E as <- <-. by exists a.
  - right. by exists e, w1.
Qed.


(** ** The timestamp of a row *)

Lemma is_space_digit n : is_space (digit n) = false.
Proof.
  unfold digit.
  destruct (n mod 10) as [|[|[|[|[|[|[|[|[|?]]]]]]]]]; reflexivity.
Qed.

Lemma dash_digit n : Ascii.eqb "-"%char (digit n) = false.
Proof.
  unfold digit.
  destruct (n mod 10) as [|[|[|[|[|[|[|[|[|?]]]]]]]]]; reflexivity.
Qed.

Lemma append_cons a (s t : string) : String a s +:+ t = String a (s +:+ t).
Proof. reflexivity. Qed.

Lemma append_nil (t : string) : "" +:+ t = t.
Proof. reflexivity. Qed.

Lemma append_empty_r (s : string) : s +:+ "" = s.
Proof.
  induction s as [|c s IH]; [done|]. by rewrite append_cons, IH.
Qed.

Lemma append_assoc_char (tok : string) c s :
  (tok +:+ String c "") +:+ s = tok +:+ String c s.
Proof.
  induction tok as [|a tok IH]; [done|]. by rewrite !append_cons, IH.
Qed.

(** A run of characters without white space goes into the current token. *)
Lemma split_ws_go_run s : forall tok rest,
  no_space s = true ->
  split_ws_go tok (s +:+ rest) = split_ws_go (tok +:+ s) rest.
Proof.
  induction s as [|c s IH]; intros tok rest Hs.
  - by rewrite append_nil, append_empty_r.
  - cbn [no_space] in Hs. apply andb_true_iff in Hs as [Hc Hs].
    apply negb_true_iff in Hc.
    rewrite append_cons. cbn [split_ws_go]. rewrite Hc, IH by done.
    by rewrite append_assoc_char.
Qed.

Lemma no_space_fmt2 n s : no_space (fmt2 n +:+ s) = no_space s.
Proof.
  unfold fmt2. rewrite !append_cons, append_nil. cbn [no_space].
  by rewrite !is_space_digit.
Qed.

Lemma no_space_iso_date d : no_space (iso_date d) = true.
Proof.
  unfold iso_date, fmt4.
  change (no_space (fmt2 (year d / 100)
            +:+ (fmt2 (year d) +:+ String "-" (fmt2 (month d)
            +:+ String "-" (fmt2 (day d) +:+ "")))) = true).
  do 3 (rewrite ?no_space_fmt2; cbn [no_space]). reflexivity.
Qed.

Lemma no_space_iso_time d : no_space (iso_time d) = true.
Proof.
  unfold iso_time.
  change (no_space (fmt2 (hour d) +:+ String ":" (fmt2 (minute d)
            +:+ String ":" (fmt2 (second d) +:+ ""))) = true).
  do 3 (rewrite ?no_space_fmt2; cbn [no_space]). reflexivity.
Qed.

(** [split()] cuts the formatted timestamp into its date and its time. *)
Lemma split_ws_iso d : split_ws (strftime_iso d) = [iso_date d; iso_time d].
Proof.
  unfold split_ws.
  change (strftime_iso d) with (iso_date d +:+ String " " (iso_time d +:+ "")).
  rewrite split_ws_go_run by apply no_space_iso_date.
  rewrite append_nil. cbn [split_ws_go].
  change (is_space " ") with true. cbv iota.
  change (String.eqb (iso_date d) "") with false. cbv iota.
  rewrite split_ws_go_run by apply no_space_iso_time.
  rewrite append_nil. cbn [split_ws_go].
  change (String.eqb (iso_time d) "") with false. reflexivity.
Qed.

Lemma prefix_char o c s :
  String.prefix (String o "") (String c s) = Ascii.eqb o c.
Proof.
  cbn [String.prefix]. destruct (ascii_dec o c) as [-> | Hne].
  - rewrite Ascii.eqb_refl. by destruct s.
  - symmetry. by apply Ascii.eqb_neq.
Qed.

Lemma replace_dash_digit n s :
  str_replace_from 0 "-" "" (String (digit n) s)
  = String (digit n) (str_replace_from 0 "-" "" s).
Proof. cbn [str_replace_from]. by rewrite prefix_char, dash_digit. Qed.

Lemma replace_dash_dash s :
  str_replace_from 0 "-" "" (String "-" s) = str_replace_from 0 "-" "" s.
Proof. cbn [str_replace_from]. rewrite prefix_char. reflexivity. Qed.

Lemma replace_dash_fmt2 n s :
  str_replace_from 0 "-" "" (fmt2 n +:+ s) = fmt2 n +:+ str_replace_from 0 "-" "" s.
Proof.
  unfold fmt2. rewrite !append_cons, append_nil. by rewrite !replace_dash_digit.
Qed.

(** Removing the dashes of the date gives the [%Y%m%d] form. *)
Lemma replace_dash_iso d : str_replace "-" "" (iso_date d) = strftime_Ymd d.
Proof.
  unfold str_replace, iso_date, strftime_Ymd, fmt4.
  change (str_replace_from 0 "-" ""
            (fmt2 (year d / 100) +:+ (fmt2 (year d) +:+ String "-"
               (fmt2 (month d) +:+ String "-" (fmt2 (day d) +:+ ""))))
          = fmt2 (year d / 100) +:+ (fmt2 (year d) +:+ (fmt2 (month d)
               +:+ (fmt2 (day d) +:+ "")))).
  rewrite !replace_dash_fmt2, replace_dash_dash, replace_dash_fmt2,
    replace_dash_dash, replace_dash_fmt2.
  reflexivity.
Qed.

Lemma extract_timestamp_cases mt w ts src w' :
  extract_timestamp_from_data (Some mt) w = (Ok (ts, src), w') ->
  (mt <> 0%Z /\ ts = fromtimestamp mt /\ src = DB_MOD_TIME /\ w' = w)
  \/ (mt = 0%Z /\ ts = now_at (clock w) /\ src = CURRENT_TIME).
Proof.
  unfold extract_timestamp_from_data.
  destruct (Z.eqb_spec mt 0) as [-> | Hne]; cbn.
  - intros [= <- <- <-]. by right.
  - intros [= <- <- <-]. by left.
Qed.
(** ** One iteration of the prompt loop *)

(** An iteration that returns either leaves the locals alone, or appends
    one row and records its id, which the ledger did not hold. *)
Lemma prompt_step_cases mt today p st w st' w' :
  prompt_step mt today p st w = (Ok st', w') ->
  st' = st
  \/ exists text ts,
      processed_prompts st !! md5_hexdigest text = None
      /\ (ts = fromtimestamp mt \/ (mt = 0%Z /\ exists k, ts = now_at k))
      /\ strftime_Ymd ts = today
      /\ st' = mkLoop (results st ++ [mkRow (iso_date ts) (iso_time ts) text])
                      (<[md5_hexdigest text := today]> (processed_prompts st))
                      (S (new_processed_count st)).
Proof.
  unfold prompt_step.
  destruct p as [| | | |l|items]; try (intros [= <- <-]; by left).
  destruct (dict_get "text" items) as [[| | |text| |]|];
    try (intros [= <- <-]; by left); try (intros [=]; done).
  unfold bind at 1. cbn [logger].
  destruct (processed_prompts st !! md5_hexdigest text) eqn:Hid.
  { intros [= <- <-]. by left. }
  unfold bind at 1.
  destruct (extract_timestamp_from_data (Some mt) _) as [[[ts src]|e] w1] eqn:Ets;
    [|done].
  cbn [fst]. rewrite split_ws_iso, replace_dash_iso.
  destruct (String.eqb (strftime_Ymd ts) today) eqn:Hd; cbn [negb].
  - intros [= <- <-]. right. exists text, ts.
    apply String.eqb_eq in Hd. split; [done|]. split; [|done].
    apply extract_timestamp_cases in Ets as [(_ & -> & _) | (-> & -> & _)];
      [by left | right; split; [done | by eexists]].
  - intros [= <- <-]. by left.
Qed.

(** What the loop does to the locals: rows are only appended, each new row
    belongs to a text whose id the ledger did not hold, and the ledger
    gains exactly the ids of the new rows, each with the value [today]. *)
Lemma for_prompts_spec mt today ps : forall st w st' e w',
  for_prompts mt today ps st w = ((st', e), w') ->
  exists new,
    results st' = results st ++ new
    /\ (forall r, In r new ->
          processed_prompts st !! md5_hexdigest (row_prompt r) = None
          /\ exists ts,
               (ts = fromtimestamp mt \/ (mt = 0%Z /\ exists k, ts = now_at k))
               /\ strftime_Ymd ts = today
               /\ row_date r = iso_date ts /\ row_time r = iso_time ts)
    /\ (forall id,
          processed_prompts st' !! id =
            match processed_prompts st !! id with
            | Some v => Some v
            | None =>
                if existsb (fun r => String.eqb (md5_hexdigest (row_prompt r)) id) new
                then Some today else None
            end).
Proof.
  induction ps as [|p ps IH]; simpl; intros st w st' e w'.
  - intros [= <- <- <-]. exists []. rewrite app_nil_r.
    split; [done|]. split; [intros r0 []|].
    intros id. simpl. by destruct (processed_prompts st !! id).
  - destruct (prompt_step mt today p st w) as [[st1|ex] w1] eqn:E.
    2:{ intros [= <- <- <-]. exists []. rewrite app_nil_r.
        split; [done|]. split; [intros r0 []|].
        intros id. simpl. by destruct (processed_prompts st !! id). }
    intros E'. destruct (IH _ _ _ _ _ E') as (new & Hres & Hnew & Hled).
    destruct (prompt_step_cases _ _ _ _ _ _ _ E)
      as [-> | (text & ts & Hfresh & Hts & Hd & ->)].
    { by exists new. }
    simpl in *. exists (mkRow (iso_date ts) (iso_time ts) text :: new).
    split; [|split].
    + rewrite Hres, <- app_assoc. done.
    + intros r [<- | Hr]; simpl; [split; [done | by exists ts]|].
      destruct (Hnew r Hr) as [Hn Hdate]. split; [|done].
      destruct (decide (md5_hexdigest text = md5_hexdigest (row_prompt r))) as [Heq|Hne].
      * rewrite <- Heq, lookup_insert_eq in Hn. done.
      * by rewrite lookup_insert_ne in Hn.
    + intros id. rewrite Hled. simpl.
      destruct (decide (md5_hexdigest text = id)) as [<- | Hne].
      * rewrite lookup_insert_eq, Hfresh, String.eqb_refl. done.
      * rewrite lookup_insert_ne by done.
        destruct (processed_prompts st !! id); [done|].
        apply String.eqb_neq in Hne. by rewrite Hne.
Qed.

(** ** The ledger file *)

Lemma append_nonempty_ne (s t : string) : t <> "" -> s +:+ t <> s.
Proof.
  intros Ht E. apply Ht.
  induction s as [|c s IH]; simpl in E; [done|].
  injection E as E. by apply IH.
Qed.

(** [load_processed_prompts] returns in every world, and what it returns
    and leaves behind is decided by what it finds at the ledger's path. *)
Lemma load_spec sp w :
  exists m w',
    load_processed_prompts sp w = (Ok m, w')
    /\ match files w !! ledger_file sp with
       | Some (JsonFile m0) => m = m0 /\ w' = w
       | Some f =>
           m = ∅
           /\ files w' = <[ ledger_file sp +:+ ".bak." +:+ strftime_stamp (now_at (clock w)) := f ]>
                           (delete (ledger_file sp) (files w))
       | None => m = ∅ /\ files w' = files w
       end.
Proof.
  unfold load_processed_prompts, ledger_file. cbv zeta.
  generalize (path_join sp PROCESSED_PROMPTS_FILE). intros L.
  unfold bind, path_exists, try_except, json_load, logger, ret, datetime_now, rename.
  destruct (files w !! L) as [[m0|df|df|b]|] eqn:Hf;
    repeat (progress (cbn; rewrite ?Hf));
    try (eexists _, _; split; [reflexivity | by cbn]).
  destruct (stores w !! L) eqn:Hs;
    repeat (progress (cbn; rewrite ?Hf, ?Hs));
    try (eexists _, _; split; [reflexivity | by cbn]).
  destruct (bool_decide (L ∈ dirs w)) eqn:Hd;
    repeat (progress (cbn; rewrite ?Hf, ?Hs, ?Hd));
    try (eexists _, _; split; [reflexivity | by cbn]).
Qed.



Lemma keeps_or_drops_quiet {A} p (c : M A) : quiet c -> keeps_or_drops p c.
Proof. intros Hq w r w' E. left. destruct (Hq _ _ _ E) as [-> _]. done. Qed.

Lemma keeps_or_drops_bind {A B} p (c : M A) (k : A -> M B) :
  keeps_or_drops p c -> (forall a, keeps_or_drops p (k a)) ->
  keeps_or_drops p (bind c k).
Proof.
  intros Hc Hk w r w' E.
  apply bind_inv in E as [(a & w1 & E1 & E2) | (e & E1 & _)].
  - destruct (Hc _ _ _ E1) as [<- | E1']; [by eapply Hk|].
    destruct (Hk _ _ _ _ E2) as [E2' | E2']; [|by right].
    right. congruence.
  - by eapply Hc.
Qed.

Lemma keeps_or_drops_try {A} p (c : M A) h :
  keeps_or_drops p c -> (forall e, keeps_or_drops p (h e)) ->
  keeps_or_drops p (try_except c h).
Proof.
  intros Hc Hh w r w' E.
  apply try_except_inv in E as [(a & E1 & _) | (e & w1 & E1 & E2)].
  - by eapply Hc.
  - destruct (Hc _ _ _ E1) as [<- | E1']; [by eapply Hh|].
    destruct (Hh _ _ _ _ E2) as [E2' | E2']; [|by right].
    right. congruence.
Qed.

Lemma keeps_or_drops_rename p dst : dst <> p -> keeps_or_drops p (rename p dst).
Proof.
  intros Hne w r w'. unfold rename.
  destruct (files w !! p) eqn:Hf.
  - intros [= <- <-]. right. cbn.
    rewrite lookup_insert_ne by done. apply lookup_delete_eq.
  - destruct (stores w !! p); [intros [= <- <-]; by left|].
    destruct (bool_decide _); intros [= <- <-]; by left.
Qed.

Lemma makedirs_files p w r w' :
  makedirs p w = (r, w') -> files w' = files w /\ stores w' = stores w.
Proof.
  unfold makedirs.
  destruct (String.eqb p ""); [by intros [= <- <-]|].
  destruct (bool_decide _); by intros [= <- <-].
Qed.

Lemma write_file_cases p f w r w' :
  write_file p f w = (r, w') ->
  (r = Ok tt /\ files w' = <[p := f]> (files w) /\ dirs w' = dirs w)
  \/ (exists e, r = Raise e /\ w' = w).
Proof.
  unfold write_file.
  destruct (bool_decide (p ∈ dirs w)); [intros [= <- <-]; right; by eexists|].
  destruct (_ || _); intros [= <- <-]; [by left | right; by eexists].
Qed.

(** What [save_processed_prompts] can leave at the ledger's path: the
    mapping it was given, what was there, or nothing. *)
Lemma save_spec m sp w r w' :
  save_processed_prompts m sp w = (r, w') ->
  files w' !! ledger_file sp = Some (JsonFile m)
  \/ files w' !! ledger_file sp = files w !! ledger_file sp
  \/ files w' !! ledger_file sp = None.
Proof.
  unfold save_processed_prompts, ledger_file. cbv zeta.
  generalize (path_join sp PROCESSED_PROMPTS_FILE). intros L E.
  apply bind_inv in E as [([] & w1 & E1 & E) | (e & E1 & _)].
  2:{ right; left. apply makedirs_files in E1 as [-> _]. done. }
  apply makedirs_files in E1 as [E1 _]. rewrite <- E1.
  apply try_except_inv in E as [(a & E & _) | (e & w2 & E & Eh)].
  - apply bind_inv in E as [([] & w3 & E2 & E) | (e & E2 & [=])].
    injection E as _ <-.
    apply write_file_cases in E2 as [(_ & E2 & _) | (e & [=] & _)].
    left. cbn. rewrite E2. apply lookup_insert_eq.
  - right.
    assert (files w2 = files w1) as <-.
    { apply bind_inv in E as [([] & w3 & E2 & [=]) | (e' & E2 & _)].
      apply write_file_cases in E2 as [([=] & _) | (e2 & _ & ->)]. done. }
    revert Eh. generalize w2 r w'.
    change (keeps_or_drops L
      (logger ERROR "error while saving the processed prompt list" ;;
       let* present := path_exists L in
       if present then
         try_except
           (let* t := datetime_now in
            rename L (L +:+ ".error." +:+ strftime_stamp t) ;;
            logger INFO "backed up the file that failed to save")
           (fun _ => logger ERROR "error while creating the backup")
       else ret tt)).
    apply keeps_or_drops_bind; [apply keeps_or_drops_quiet, quiet_logger|].
    intros _. apply keeps_or_drops_bind; [apply keeps_or_drops_quiet, quiet_path_exists|].
    intros [|]; [|apply keeps_or_drops_quiet, quiet_ret].
    apply keeps_or_drops_try; [|intros _; apply keeps_or_drops_quiet, quiet_logger].
    apply keeps_or_drops_bind; [apply keeps_or_drops_quiet, quiet_datetime_now|].
    intros t. apply keeps_or_drops_bind; [|intros _; apply keeps_or_drops_quiet, quiet_logger].
    apply keeps_or_drops_rename, append_nonempty_ne. done.
Qed.

(** ** The shape of a [process_database] run *)

Lemma logger_inv l msg w r w' :
  logger l msg w = (r, w') -> r = Ok tt /\ w' = add_log l msg w.
Proof. by intros [= <- <-]. Qed.

(** Up to the loop: the block is left early without the ledger having been
    touched, or the ledger has been loaded. *)
Lemma reach_loop_spec db w r w' :
  reach_loop db w = (r, w') ->
  ((forall pd t l, r <> Ok (Ready pd t l)) /\ same_fs w w')
  \/ (exists pd k loaded wa wb,
        r = Ok (Ready pd (strftime_Ymd (now_at k)) loaded)
        /\ same_fs w wa
        /\ load_processed_prompts SAVE_PATH wa = (Ok loaded, wb)
        /\ same_fs wb w').
Proof.
  unfold reach_loop. cbv zeta. intros E.
  apply bind_inv in E as [(pd & w1 & E1 & E) | (e & E1 & ->)].
  2:{ left. split; [done|]. eapply quiet_read_prompts, E1. }
  apply quiet_read_prompts in E1.
  destruct (negb (truthy pd)).
  { apply bind_inv in E as [([] & w2 & E2 & [= <- <-]) | (? & [=] & _)].
    apply logger_inv in E2 as [_ ->]. left. split; [done|].
    eapply same_fs_trans; [exact E1 | by repeat split]. }
  apply bind_inv in E as [([] & w2 & E2 & E) | (e & E2 & ->)].
  2:{ left. split; [done|]. eapply same_fs_trans; [exact E1 | eapply quiet_first_prompt, E2]. }
  apply quiet_first_prompt in E2.
  apply bind_inv in E as [(n & w3 & [= <- <-] & E) | (? & [=] & _)].
  apply bind_inv in E as [([] & w4 & E3 & E) | (? & [=] & _)].
  apply logger_inv in E3 as [_ ->].
  destruct (load_spec SAVE_PATH (add_log INFO "today's date" (tick w2)))
    as (m & w5 & El & _).
  apply bind_inv in E as [(loaded & w6 & E4 & E) | (? & E4 & _)]; [|congruence].
  rewrite El in E4. injection E4 as <- <-.
  apply bind_inv in E as [([] & w7 & E5 & [= <- <-]) | (? & [=] & _)].
  apply logger_inv in E5 as [_ ->].
  right. exists pd, (clock w2), m, (add_log INFO "today's date" (tick w2)), w5.
  split; [done|]. split; [|split; [done | by repeat split]].
  eapply same_fs_trans; [exact E1|]. eapply same_fs_trans; [exact E2|]. by repeat split.
Qed.

(** A run either fails to bind [project_name] (the store cannot be
    stat'ed) and raises, or returns no rows without having touched the
    ledger, or loads the ledger, runs the loop from it, and returns the
    loop's rows, saving the loop's ledger when the loop did not raise. *)
Lemma process_database_spec folder w r w' :
  process_database folder w = (r, w') ->
  (r = Raise UnboundLocalError /\ same_fs w w'
   /\ stores w !! path_join folder STATE_DB_FILE = None)
  \/ (exists pn store,
        stores w !! path_join folder STATE_DB_FILE = Some store
        /\ r = Ok (pn, []) /\ same_fs w w')
  \/ (exists pn store k ps loaded st e wa wb wc wd,
        stores w !! path_join folder STATE_DB_FILE = Some store
        /\ same_fs w wa
        /\ load_processed_prompts SAVE_PATH wa = (Ok loaded, wb)
        /\ same_fs wb wc
        /\ for_prompts (st_mtime store) (strftime_Ymd (now_at k)) ps (mkLoop [] loaded 0) wc
           = ((st, e), wd)
        /\ r = Ok (pn, results st)
        /\ ((e <> None /\ same_fs wd w')
            \/ (e = None /\ exists we r' wf,
                  same_fs wd we
                  /\ save_processed_prompts (processed_prompts st) SAVE_PATH we = (r', wf)
                  /\ same_fs wf w'))).
Proof.
  unfold process_database. cbv zeta.
  set (db_path := path_join folder STATE_DB_FILE).
  intros E.
  apply bind_inv in E as [([] & w1 & E1 & E) | (e & [=] & _)].
  apply logger_inv in E1 as [_ ->].
  apply bind_inv in E as [([] & w2 & E1 & E) | (e & [=] & _)].
  apply logger_inv in E1 as [_ ->].
  set (w0 := add_log INFO _ (add_log INFO _ w)) in *.
  assert (same_fs w w0) as H0 by (by repeat split).
  apply bind_inv in E as [(mtime & w3 & E1 & E) | (e & E1 & _)].
  2:{ apply try_except_inv in E1 as [(a & E1 & [=]) | (e' & w3 & _ & E1)].
      apply bind_inv in E1 as [([] & w4 & _ & [=]) | (e2 & [=] & _)]. }
  apply try_except_inv in E1 as [(a & E1 & [= <-]) | (e' & w4 & E1 & E2)].
  - (* getmtime succeeded *)
    apply bind_inv in E1 as [(t & w4 & E1 & [= <- <-]) | (e2 & _ & [=])].
    unfold getmtime in E1.
    destruct (stores w0 !! db_path) as [store|] eqn:Hst; [|done].
    injection E1 as <- <-.
    assert (stores w !! db_path = Some store) as Hst'.
    { destruct H0 as (_ & _ & <- & _). done. }
    apply bind_inv in E as [(pn & w5 & E1 & E) | (e & E1 & _)].
    2:{ destruct (total_extract_project_name folder db_path w0) as (? & ? & E'). congruence. }
    assert (same_fs w w5) as H5.
    { eapply same_fs_trans; [exact H0 | eapply quiet_extract_project_name, E1]. }
    clear E1.
    apply bind_inv in E as [(reached & w6 & E1 & E) | (e & E1 & _)].
    2:{ apply try_except_inv in E1 as [(? & _ & [=]) | (? & w6 & _ & E1)].
        apply bind_inv in E1 as [([] & ? & _ & [=]) | (? & [=] & _)]. }
    apply try_except_inv in E1 as [(a & E1 & [= <-]) | (e' & w7 & E1 & E2)].
    2:{ (* the block raised before the loop *)
        apply bind_inv in E2 as [([] & w8 & E2 & [= <- <-]) | (? & [=] & _)].
        apply logger_inv in E2 as [_ ->].
        apply bind_inv in E as [([] & w9 & E & [= <- <-]) | (? & [=] & _)].
        apply logger_inv in E as [_ ->].
        right; left. exists pn, store. split; [done|]. split; [done|].
        apply reach_loop_spec in E1 as [[_ E1] | (? & ? & ? & ? & ? & [=] & _)].
        eapply same_fs_trans; [exact H5|]. eapply same_fs_trans; [exact E1|].
        by repeat split. }
    apply reach_loop_spec in E1
      as [[Hn E1] | (pd & k & loaded & wa & wb & [= ->] & Ha & Hl & Hb)].
    { destruct reached as [| |pd t l]; [| |by destruct (Hn pd t l)].
      - injection E as <- <-. right; left. exists pn, store. split; [done|]. split; [done|].
        eapply same_fs_trans; [exact H5 | exact E1].
      - apply bind_inv in E as [([] & w9 & E & [= <- <-]) | (? & [=] & _)].
        apply logger_inv in E as [_ ->].
        right; left. exists pn, store. split; [done|]. split; [done|].
        eapply same_fs_trans; [exact H5|]. eapply same_fs_trans; [exact E1|].
        by repeat split. }
    right; right.
    apply bind_inv in E as [([st e] & w8 & E1 & E) | (? & E1 & _)].
    2:{ destruct (for_prompts _ _ _ _ _) as [o wo]. done. }
    destruct (for_prompts (st_mtime store) (strftime_Ymd (now_at k)) (iter_items pd)
                (mkLoop [] loaded 0) w6) as [o wo] eqn:Eloop.
    injection E1 as -> ->.
    exists pn, store, k, (iter_items pd), loaded, st, e, wa, wb, w6, w8.
    split; [done|]. split; [by eapply same_fs_trans|].
    split; [done|]. split; [done|]. split; [done|].
    destruct e as [ex|].
    + apply bind_inv in E as [([] & w9 & E & E') | (? & [=] & _)].
      apply logger_inv in E as [_ ->].
      apply bind_inv in E' as [([] & w10 & E & [= <- <-]) | (? & [=] & _)].
      apply logger_inv in E as [_ ->].
      split; [done|]. left. split; [done | by repeat split].
    + apply bind_inv in E as [([] & w9 & E & E') | (? & E & _)].
      2:{ apply try_except_inv in E as [(? & _ & [=]) | (? & ? & _ & [=])]. }
      apply bind_inv in E' as [([] & w10 & E2 & [= <- <-]) | (? & [=] & _)].
      apply logger_inv in E2 as [_ ->].
      split; [done|]. right. split; [done|].
      apply try_except_inv in E as [(? & E & _) | (? & w11 & E & E2)].
      * apply bind_inv in E as [([] & w12 & E2 & E) | (? & [=] & _)].
        apply logger_inv in E2 as [_ ->].
        eexists _, _, _. split; [|split; [exact E|by repeat split]].
        by repeat split.
      * apply logger_inv in E2 as [_ ->].
        apply bind_inv in E as [([] & w12 & E2 & E) | (? & [=] & _)].
        apply logger_inv in E2 as [_ ->].
        eexists _, _, _. split; [|split; [exact E|by repeat split]].
        by repeat split.
  - (* getmtime raised: project_name is unbound at the final return *)
    apply bind_inv in E1 as [(t & w5 & _ & [=]) | (e2 & E1 & _)].
    unfold getmtime in E1.
    destruct (stores w0 !! db_path) as [store|] eqn:Hst; [done|].
    injection E1 as <- <-.
    apply bind_inv in E2 as [([] & w8 & E2 & [= <- <-]) | (? & [=] & _)].
    apply logger_inv in E2 as [_ ->].
    apply bind_inv in E as [([] & w9 & E & [= <- <-]) | (? & [=] & _)].
    apply logger_inv in E as [_ ->].
    left. split; [done|]. split; [by repeat split|].
    destruct H0 as (_ & _ & <- & _). done.
Qed.

(** ** Frames: cells, sorting, duplicates *)













(** *** The order *)








(** *** Duplicates *)







(** *** The frame written by the update branch *)



(** *** The columns after the column handling *)






(** ** Sanitization *)

Lemma strip_control_filter s :
  list_ascii_of_string (strip_control s)
  = List.filter (fun c => negb (is_control c)) (list_ascii_of_string s).
Proof.
  induction s as [|c s IH]; [done|]. cbn.
  destruct (is_control c); cbn; by rewrite IH.
Qed.


Lemma take_chars_all n s : String.length s <= n -> take_chars n s = s.
Proof.
  revert s. induction n as [|n IH]; intros [|c s]; cbn; try done; try lia.
  intros Hl. f_equal. apply IH. lia.
Qed.

Lemma take_chars_firstn n s :
  list_ascii_of_string (take_chars n s) = firstn n (list_ascii_of_string s).
Proof.
  revert s. induction n as [|n IH]; intros [|c s]; cbn; try done.
  by rewrite IH.
Qed.

Lemma sanitize_cell_take s :
  sanitize_cell s = take_chars max_cell_length (strip_control s).
Proof.
  unfold sanitize_cell. generalize max_cell_length. intros n.
  destruct (Nat.ltb_spec n (String.length (strip_control s))); [done|].
  symmetry. by apply take_chars_all.
Qed.

(** What [sanitize_cell] keeps: the characters outside the class, in their
    order, up to the maximal cell length. *)
Lemma sanitize_cell_chars s :
  list_ascii_of_string (sanitize_cell s)
  = firstn max_cell_length
      (List.filter (fun c => negb (is_control c)) (list_ascii_of_string s)).
Proof.
  by rewrite sanitize_cell_take, take_chars_firstn, strip_control_filter.
Qed.



(** ** What [save_to_excel] leaves on disk *)

Lemma write_frame_spec fp df w p w' :
  write_frame fp df w = (Ok (Some p), w') ->
  (p = fp /\ files w' !! p = Some (XlsxFile df))
  \/ (p = str_replace ".xlsx" ".csv" fp /\ files w' !! p = Some (CsvFile df)).
Proof.
  unfold write_frame. intros E.
  apply try_except_inv in E as [(a & E & [= <-]) | (e & w1 & E & Eh)].
  - left.
    apply bind_inv in E as [([] & w2 & E1 & E) | (? & _ & [=])].
    apply bind_inv in E as [([] & w3 & E2 & [= <- <-]) | (? & [=] & _)].
    apply logger_inv in E2 as [_ ->]. split; [done|]. cbn.
    unfold to_excel in E1. destruct (to_excel_ok fp df); [|done].
    apply write_file_cases in E1 as [(_ & -> & _) | (? & [=] & _)].
    apply lookup_insert_eq.
  - right.
    apply bind_inv in Eh as [([] & w2 & E1 & Eh) | (? & [=] & _)].
    apply logger_inv in E1 as [_ ->].
    apply bind_inv in Eh as [([] & w3 & E2 & Eh) | (? & _ & [=])].
    apply bind_inv in Eh as [([] & w4 & E3 & [= <- <-]) | (? & [=] & _)].
    apply logger_inv in E3 as [_ ->]. split; [done|]. cbn.
    apply write_file_cases in E2 as [(_ & -> & _) | (? & [=] & _)].
    apply lookup_insert_eq.
Qed.


(** ** The ledger decides what is emitted *)

(** C1.  A prompt whose content id is in the ledger that [process_database]
    loads is skipped whatever date the entry carries: no row with that text
    is among the rows the run returns for the merge writer.  The run and
    its world are arbitrary, so this holds for every run that sees a
    ledger holding the id. *)
Theorem ledger_hit_never_emitted folder w ledger text project rows w' :
  files w !! ledger_file SAVE_PATH = Some (JsonFile ledger) ->
  is_Some (ledger !! md5_hexdigest text) ->
  process_database folder w = (Ok (project, rows), w') ->
  forall r, In r rows -> row_prompt r <> text.
Proof.
  intros Hfile [date Hid] Hrun r Hr <-.
  apply process_database_spec in Hrun
    as [([=] & _) | [(pn & ? & _ & [= _ ->] & _) | (pn & store & k & ps & loaded & st & e
          & wa & wb & wc & wd & _ & Ha & Hload & _ & Hloop & [= _ ->] & _)]];
    [done|].
  destruct (load_spec SAVE_PATH wa) as (m & wb' & Hload' & Hm).
  rewrite Hload in Hload'. injection Hload' as <- <-.
  destruct Ha as (Hfa & _). rewrite Hfa, Hfile in Hm. destruct Hm as [-> _].
  apply for_prompts_spec in Hloop as (new & Hres & Hnew & _).
  simpl in Hres. rewrite Hres in Hr.
  destruct (Hnew r Hr) as [Hfresh _]. simpl in Hfresh. congruence.
Qed.

Lemma is_digit_digit n : is_digit (digit n) = true.
Proof.
  unfold digit.
  destruct (n mod 10) as [|[|[|[|[|[|[|[|[|?]]]]]]]]]; reflexivity.
Qed.




(** ** The merge writer *)


Lemma makedirs_known p w :
  p <> "" -> files w !! p = None ->
  forallb (fun d => bool_decide (d ∈ dirs w)) (dir_chain (S (String.length p)) p) = true ->
  exists w', makedirs p w = (Ok tt, w') /\ files w' = files w /\ dirs w' = dirs w
             /\ stores w' = stores w.
Proof.
  intros Hp Hf Hd. unfold makedirs.
  apply String.eqb_neq in Hp. rewrite Hp.
  rewrite bool_decide_eq_false_2 by (rewrite Hf; by intros [? ?]).
  eexists. split; [done|]. cbn. split; [done|]. split; [|done].
  apply set_eq. intros d. rewrite elem_of_union, elem_of_list_to_set.
  split; [|tauto]. intros [Hin | Hin]; [|done].
  rewrite forallb_forall in Hd. apply list_elem_of_In in Hin.
  apply Hd in Hin. by apply bool_decide_eq_true_1 in Hin.
Qed.


(** ** What holds around the departures *)

(** X3.  Whenever the store can be stat'ed, [process_database] returns a
    project name and a list of rows: every failure after the stat (an
    unreadable database, an unparsable value, a malformed record, a ledger
    that cannot be read or written) is caught inside it. *)
Theorem process_database_returns folder w store :
  stores w !! path_join folder STATE_DB_FILE = Some store ->
  exists pn rows w', process_database folder w = (Ok (pn, rows), w').
Proof.
  intros Hst. destruct (process_database folder w) as [r w'] eqn:E.
  apply process_database_spec in E
    as [(_ & _ & Hn) | [(pn & ? & _ & -> & _) | (pn & ? & ? & ? & ? & st & ? & ? & ? & ?
          & ? & _ & _ & _ & _ & _ & -> & _)]].
  - congruence.
  - by eexists _, _, _.
  - by eexists _, _, _.
Qed.



(** X8.  With a non-zero modification time every row carries the date and
    time of the store's modification, and a row is returned only if that
    date is the date the clock showed. *)
Theorem rows_carry_the_capture_time folder w store pn rows w' :
  stores w !! path_join folder STATE_DB_FILE = Some store ->
  st_mtime store <> 0%Z ->
  process_database folder w = (Ok (pn, rows), w') ->
  forall r, In r rows ->
    row_date r = iso_date (fromtimestamp (st_mtime store))
    /\ row_time r = iso_time (fromtimestamp (st_mtime store))
    /\ exists k, strftime_Ymd (fromtimestamp (st_mtime store))
                 = strftime_Ymd (now_at k).
Proof.
  intros Hst Hmt Hrun r Hr.
  apply process_database_spec in Hrun
    as [([=] & _) | [(? & ? & _ & [= _ ->] & _) | (? & store' & k & ps & loaded & st
          & e & wa & wb & wc & wd & Hst' & _ & _ & _ & Hloop & [= _ ->] & _)]];
    [done|].
  rewrite Hst in Hst'. injection Hst' as <-.
  apply for_prompts_spec in Hloop as (new & Hres & Hnew & _).
  cbn in Hres. rewrite Hres in Hr.
  destruct (Hnew r Hr) as (_ & ts & [-> | [? _]] & Hd & -> & ->); [|done].
  split; [done|]. split; [done|]. by exists k.
Qed.

(** The ledger and the rows move together: an id enters the ledger in the
    loop exactly when a row for it is appended. *)
Lemma ledger_moves_with_the_rows mt today ps st w st' e w' :
  for_prompts mt today ps st w = ((st', e), w') ->
  exists new,
    results st' = results st ++ new
    /\ forall id, processed_prompts st !! id = None ->
          (is_Some (processed_prompts st' !! id)
           <-> exists r, In r new /\ md5_hexdigest (row_prompt r) = id).
Proof.
  intros Hloop.
  apply for_prompts_spec in Hloop as (new & Hres & _ & Hled).
  exists new. split; [done|]. intros id Hid. rewrite Hled, Hid.
  destruct (existsb _ new) eqn:Hex.
  - apply existsb_exists in Hex as (r & Hr & Heq). apply String.eqb_eq in Heq.
    split; [intros _; by exists r | by eexists].
  - split; [by intros [? ?]|]. intros (r & Hr & Heq). exfalso.
    assert (existsb (fun r => String.eqb (md5_hexdigest (row_prompt r)) id) new = true);
      [|congruence].
    apply existsb_exists. exists r. split; [done | by apply String.eqb_eq].
Qed.

(** With a non-zero modification time whose date is not today's, the loop
    changes neither the rows nor the ledger: a prompt the date test rejects
    stays eligible. *)
Lemma stale_store_adds_nothing mt today ps st w st' e w' :
  mt <> 0%Z ->
  strftime_Ymd (fromtimestamp mt) <> today ->
  for_prompts mt today ps st w = ((st', e), w') ->
  results st' = results st /\ processed_prompts st' = processed_prompts st.
Proof.
  intros Hmt Hdate Hloop.
  apply for_prompts_spec in Hloop as (new & Hres & Hnew & Hled).
  assert (new = []) as ->.
  { destruct new as [|r new]; [done|]. exfalso.
    destruct (Hnew r (or_introl eq_refl)) as (_ & ts & [-> | [? _]] & Hd & _); done. }
  rewrite app_nil_r in Hres. split; [done|].
  apply map_eq. intros id. rewrite Hled. cbn.
  by destruct (processed_prompts st !! id).
Qed.

(** *** The fallback path *)

Lemma str_replace_skip_all old new s k :
  String.length s <= k -> str_replace_from k old new s = "".
Proof.
  revert k. induction s as [|c s IH]; intros k Hk; cbn; [done|].
  destruct k as [|k]; cbn in Hk; [lia|]. apply IH. lia.
Qed.

Lemma prefix_refl (s : string) : String.prefix s s = true.
Proof.
  induction s as [|c s IH]; [done|]. cbn.
  by destruct (ascii_dec c c).
Qed.

(** When [old] occurs in [s +:+ old] only as the suffix, [replace] rewrites
    the suffix alone. *)
Lemma str_replace_suffix old new s :
  old <> "" ->
  forallb (fun i => negb (String.prefix old (drop_chars i (s +:+ old))))
          (seq 0 (String.length s)) = true ->
  str_replace old new (s +:+ old) = s +:+ new.
Proof.
  intros Hold. unfold str_replace.
  induction s as [|c s IH]; intros Hocc.
  - rewrite !append_nil. destruct old as [|c o]; [done|].
    cbn [str_replace_from]. rewrite prefix_refl.
    rewrite str_replace_skip_all by (cbn [String.length]; lia).
    apply append_empty_r.
  - cbn [String.length seq forallb] in Hocc.
    apply andb_true_iff in Hocc as [H0 Hocc].
    cbn [drop_chars] in H0. apply negb_true_iff in H0.
    rewrite !append_cons in *. cbn [str_replace_from]. rewrite H0. f_equal.
    apply IH. apply forallb_forall. intros i Hi.
    rewrite forallb_forall in Hocc. specialize (Hocc (S i)).
    rewrite in_seq in Hi, Hocc. cbn [drop_chars] in Hocc. apply Hocc. lia.
Qed.

(** X19.  When [to_excel] raises and the path has no [.xlsx] other than
    its extension, the frame that was to be written is written as CSV at
    the same base path, and that path is returned. *)
Theorem csv_fallback_at_base_path base df w :
  forallb (fun i => negb (String.prefix ".xlsx" (drop_chars i (base +:+ ".xlsx"))))
          (seq 0 (String.length base)) = true ->
  to_excel_ok (base +:+ ".xlsx") df = false ->
  (base +:+ ".csv") ∉ dirs w ->
  dirname (base +:+ ".csv") ∈ dirs w ->
  exists w',
    write_frame (base +:+ ".xlsx") df w = (Ok (Some (base +:+ ".csv")), w')
    /\ files w' = <[ base +:+ ".csv" := CsvFile df ]> (files w).
Proof.
  intros Hocc Hexcel Hnotdir Hparent.
  unfold write_frame, try_except, bind at 1, to_excel at 1. rewrite Hexcel.
  rewrite (str_replace_suffix ".xlsx" ".csv" base) by done.
  unfold bind at 1, logger at 1. unfold bind at 1, to_csv, write_file.
  cbn [dirs add_log].
  rewrite (bool_decide_eq_false_2 _ Hnotdir).
  rewrite (bool_decide_eq_true_2 _ Hparent), orb_true_r.
  eexists. split; reflexivity.
Qed.

(** A call without rows returns nothing and writes nothing. *)
Lemma save_to_excel_no_rows pn sp w :
  exists w', save_to_excel pn [] sp w = (Ok None, w') /\ same_fs w w'.
Proof. eexists. split; [reflexivity | by repeat split]. Qed.

(** * Further properties of the module *)

(** ** Reading the prompts of a store *)

Lemma read_prompts_stored db w :
  exists w', read_prompts db w = (stored_prompts (stores w !! db), w')
             /\ same_fs w w'.
Proof.
  unfold read_prompts, stored_prompts, bind, select_tables, select_item, logger, ret, raise.
  destruct (stores w !! db) as [[mt [|[tbl|]]]|] eqn:Hs; cbn; rewrite ?Hs; cbn;
    try (eexists; split; [reflexivity | by repeat split]).
  destruct (tbl !! "aiService.prompts") as [v|]; cbn;
    try (eexists; split; [reflexivity | by repeat split]).
  destruct (String.eqb v ""); cbn;
    try (eexists; split; [reflexivity | by repeat split]).
  destruct (json_loads v) as [[]|]; cbn;
    try (eexists; split; [reflexivity | by repeat split]).
Qed.

(** Up to the loop, with what was read from the store. *)
Lemma reach_loop_shape db w r w' :
  reach_loop db w = (r, w') ->
  ((forall pd t l, r <> Ok (Ready pd t l)) /\ same_fs w w'
   /\ (forall pd, stored_prompts (stores w !! db) = Ok pd -> truthy pd = true ->
         exists items, pd = JObj items))
  \/ (exists pd k loaded wa wb,
        r = Ok (Ready pd (strftime_Ymd (now_at k)) loaded)
        /\ stored_prompts (stores w !! db) = Ok pd
        /\ truthy pd = true
        /\ (forall items, pd <> JObj items)
        /\ same_fs w wa
        /\ load_processed_prompts SAVE_PATH wa = (Ok loaded, wb)
        /\ same_fs wb w').
Proof.
  unfold reach_loop. cbv zeta. intros E.
  destruct (read_prompts_stored db w) as (w0 & Er & Hs0).
  apply bind_inv in E as [(pd & w1 & E1 & E) | (e & E1 & ->)].
  2:{ left. rewrite Er in E1. injection E1 as Hst <-.
      split; [done|]. split; [done|]. intros pd Hpd. congruence. }
  rewrite Er in E1. injection E1 as Hst <-.
  destruct (truthy pd) eqn:Htr; cbn [negb] in E.
  2:{ apply bind_inv in E as [([] & w2 & E2 & [= <- <-]) | (? & [=] & _)].
      apply logger_inv in E2 as [_ ->]. left. split; [done|].
      split; [eapply same_fs_trans; [exact Hs0 | by repeat split]|].
      intros pd' Hpd'. rewrite Hst in Hpd'. injection Hpd' as <-. congruence. }
  apply bind_inv in E as [([] & w2 & E2 & E) | (e & E2 & ->)].
  2:{ left. split; [done|].
      split; [eapply same_fs_trans; [exact Hs0 | eapply quiet_first_prompt, E2]|].
      intros pd' Hpd' _. rewrite Hst in Hpd'. injection Hpd' as <-.
      destruct pd; try (by injection E2); by eexists. }
  assert (forall items, pd <> JObj items) as Hobj.
  { intros items ->. done. }
  apply quiet_first_prompt in E2.
  apply bind_inv in E as [(n & w3 & [= <- <-] & E) | (? & [=] & _)].
  apply bind_inv in E as [([] & w4 & E3 & E) | (? & [=] & _)].
  apply logger_inv in E3 as [_ ->].
  destruct (load_spec SAVE_PATH (add_log INFO "today's date" (tick w2)))
    as (m & w5 & El & _).
  apply bind_inv in E as [(loaded & w6 & E4 & E) | (? & E4 & _)]; [|congruence].
  rewrite El in E4. injection E4 as <- <-.
  apply bind_inv in E as [([] & w7 & E5 & [= <- <-]) | (? & [=] & _)].
  apply logger_inv in E5 as [_ ->].
  right. exists pd, (clock w2), m, (add_log INFO "today's date" (tick w2)), w5.
  split; [done|]. split; [done|]. split; [done|]. split; [done|].
  split; [|split; [done | by repeat split]].
  eapply same_fs_trans; [exact Hs0|]. eapply same_fs_trans; [exact E2|]. by repeat split.
Qed.

(** The shape of a run, with what was read from the store. *)
Lemma process_database_shape folder w store r w' :
  stores w !! path_join folder STATE_DB_FILE = Some store ->
  process_database folder w = (r, w') ->
  (exists pn,
     r = Ok (pn, []) /\ same_fs w w'
     /\ (forall pd, stored_prompts (Some store) = Ok pd -> truthy pd = true ->
           exists items, pd = JObj items))
  \/ (exists pn pd k loaded st e wa wb wc wd,
        stored_prompts (Some store) = Ok pd
        /\ truthy pd = true
        /\ (forall items, pd <> JObj items)
        /\ same_fs w wa
        /\ load_processed_prompts SAVE_PATH wa = (Ok loaded, wb)
        /\ same_fs wb wc
        /\ for_prompts (st_mtime store) (strftime_Ymd (now_at k)) (iter_items pd)
             (mkLoop [] loaded 0) wc = ((st, e), wd)
        /\ r = Ok (pn, results st)
        /\ ((e <> None /\ same_fs wd w')
            \/ (e = None /\ exists we r' wf,
                  same_fs wd we
                  /\ save_processed_prompts (processed_prompts st) SAVE_PATH we = (r', wf)
                  /\ same_fs wf w'))).
Proof.
  unfold process_database. cbv zeta.
  set (db_path := path_join folder STATE_DB_FILE).
  intros Hst' E.
  apply bind_inv in E as [([] & w1 & E1 & E) | (e & [=] & _)].
  apply logger_inv in E1 as [_ ->].
  apply bind_inv in E as [([] & w2 & E1 & E) | (e & [=] & _)].
  apply logger_inv in E1 as [_ ->].
  set (w0 := add_log INFO _ (add_log INFO _ w)) in *.
  assert (same_fs w w0) as H0 by (by repeat split).
  assert (stores w0 !! db_path = Some store) as Hst by done.
  unfold try_except at 1, bind at 1, bind at 1, getmtime in E. rewrite Hst in E.
  cbn [ret] in E.
  apply bind_inv in E as [(pn & w5 & E1 & E) | (e & E1 & _)].
  2:{ destruct (total_extract_project_name folder db_path w0) as (? & ? & E'). congruence. }
  assert (same_fs w0 w5) as H05 by (eapply quiet_extract_project_name, E1).
  assert (same_fs w w5) as H5 by (by eapply same_fs_trans).
  assert (stores w5 !! db_path = Some store) as Hst5.
  { destruct H05 as (_ & _ & -> & _). done. }
  clear E1.
  apply bind_inv in E as [(reached & w6 & E1 & E) | (e & E1 & _)].
  2:{ apply try_except_inv in E1 as [(? & _ & [=]) | (? & w6 & _ & E1)].
      apply bind_inv in E1 as [([] & ? & _ & [=]) | (? & [=] & _)]. }
  apply try_except_inv in E1 as [(a & E1 & [= <-]) | (e' & w7 & E1 & E2)].
  2:{ apply bind_inv in E2 as [([] & w8 & E2 & [= <- <-]) | (? & [=] & _)].
      apply logger_inv in E2 as [_ ->].
      apply bind_inv in E as [([] & w9 & E & [= <- <-]) | (? & [=] & _)].
      apply logger_inv in E as [_ ->].
      left. exists pn. split; [done|].
      apply reach_loop_shape in E1
        as [(_ & E1 & Hpd) | (? & ? & ? & ? & ? & [=] & _)].
      rewrite Hst5 in Hpd. split; [|exact Hpd].
      eapply same_fs_trans; [exact H5|]. eapply same_fs_trans; [exact E1|].
      by repeat split. }
  apply reach_loop_shape in E1
    as [(Hn & E1 & Hpd) | (pd & k & loaded & wa & wb & [= ->] & Hpd & Htr & Hobj & Ha & Hl & Hb)].
  { rewrite Hst5 in Hpd.
    destruct reached as [| |pd t l]; [| |by destruct (Hn pd t l)].
    - injection E as <- <-. left. exists pn. split; [done|]. split; [|exact Hpd].
      eapply same_fs_trans; [exact H5 | exact E1].
    - apply bind_inv in E as [([] & w9 & E & [= <- <-]) | (? & [=] & _)].
      apply logger_inv in E as [_ ->].
      left. exists pn. split; [done|]. split; [|exact Hpd].
      eapply same_fs_trans; [exact H5|]. eapply same_fs_trans; [exact E1|].
      by repeat split. }
  rewrite Hst5 in Hpd.
  right.
  apply bind_inv in E as [([st e] & w8 & E1 & E) | (? & E1 & _)].
  2:{ destruct (for_prompts _ _ _ _ _) as [o wo]. done. }
  destruct (for_prompts (st_mtime store) (strftime_Ymd (now_at k)) (iter_items pd)
              (mkLoop [] loaded 0) w6) as [o wo] eqn:Eloop.
  injection E1 as -> ->.
  exists pn, pd, k, loaded, st, e, wa, wb, w6, w8.
  split; [done|]. split; [done|]. split; [done|].
  split; [by eapply same_fs_trans|].
  split; [done|]. split; [done|]. split; [done|].
  destruct e as [ex|].
  + apply bind_inv in E as [([] & w9 & E & E') | (? & [=] & _)].
    apply logger_inv in E as [_ ->].
    apply bind_inv in E' as [([] & w10 & E & [= <- <-]) | (? & [=] & _)].
    apply logger_inv in E as [_ ->].
    split; [done|]. left. split; [done | by repeat split].
  + apply bind_inv in E as [([] & w9 & E & E') | (? & E & _)].
    2:{ apply try_except_inv in E as [(? & _ & [=]) | (? & ? & _ & [=])]. }
    apply bind_inv in E' as [([] & w10 & E2 & [= <- <-]) | (? & [=] & _)].
    apply logger_inv in E2 as [_ ->].
    split; [done|]. right. split; [done|].
    apply try_except_inv in E as [(? & E & _) | (? & w11 & E & E2)].
    * apply bind_inv in E as [([] & w12 & E2 & E) | (? & [=] & _)].
      apply logger_inv in E2 as [_ ->].
      eexists _, _, _. split; [|split; [exact E|by repeat split]].
      by repeat split.
    * apply logger_inv in E2 as [_ ->].
      apply bind_inv in E as [([] & w12 & E2 & E) | (? & [=] & _)].
      apply logger_inv in E2 as [_ ->].
      eexists _, _, _. split; [|split; [exact E|by repeat split]].
      by repeat split.
Qed.

(** ** The loop on well-formed and ill-formed records *)

Lemma prompt_step_wellformed mt today p st w :
  wellformed_prompt p = true ->
  exists st' w', prompt_step mt today p st w = (Ok st', w').
Proof.
  unfold wellformed_prompt, prompt_step.
  destruct p as [| | | |l|items]; try (intros _; by eexists _, _).
  destruct (dict_get "text" items) as [[| | |text| |]|];
    try done; try (intros _; by eexists _, _).
  intros _. unfold bind at 1. cbn [logger].
  destruct (processed_prompts st !! md5_hexdigest text); [by eexists _, _|].
  unfold bind at 1.
  destruct (extract_timestamp_from_data (Some mt) _) as [[[ts src]|e] w1] eqn:Ets.
  - cbn [fst]. rewrite split_ws_iso.
    destruct (negb _); by eexists _, _.
  - unfold extract_timestamp_from_data, bind, datetime_now, ret in Ets.
    destruct (negb (mt =? 0)%Z); done.
Qed.

Lemma prompt_step_illformed mt today p st w :
  wellformed_prompt p = false ->
  exists e w', prompt_step mt today p st w = (Raise e, w').
Proof.
  unfold wellformed_prompt, prompt_step.
  destruct p as [| | | |l|items]; try done.
  destruct (dict_get "text" items) as [[| | |text| |]|]; try done;
    intros _; by eexists _, _.
Qed.

(** The loop runs to its end exactly when every record is well-formed. *)
Lemma for_prompts_completes mt today ps : forall st w st' e w',
  for_prompts mt today ps st w = ((st', e), w') ->
  (e = None <-> forallb wellformed_prompt ps = true).
Proof.
  induction ps as [|p ps IH]; intros st w st' e w'; cbn [for_prompts forallb].
  - by intros [= <- <- <-].
  - destruct (wellformed_prompt p) eqn:Hp; cbn [andb].
    + destruct (prompt_step_wellformed mt today p st w Hp) as (st1 & w1 & ->).
      apply IH.
    + destruct (prompt_step_illformed mt today p st w Hp) as (ex & w1 & ->).
      intros [= <- <- <-]. split; done.
Qed.

(** ** The ledger across a run *)

(** X12.  An entry of a valid ledger is neither changed nor removed by a run. *)
Theorem ledger_entries_are_kept folder w r w' m m' id v :
  process_database folder w = (r, w') ->
  files w !! ledger_file SAVE_PATH = Some (JsonFile m) ->
  m !! id = Some v ->
  files w' !! ledger_file SAVE_PATH = Some (JsonFile m') ->
  m' !! id = Some v.
Proof.
  intros Hrun Hm Hid Hm'.
  apply process_database_spec in Hrun
    as [(_ & Hs & _) | [(pn & ? & _ & _ & Hs) | (pn & store & k & ps & loaded & st & e
          & wa & wb & wc & wd & _ & Ha & Hload & Hb & Hloop & _ & Hend)]].
  1,2: destruct Hs as [Hs _]; rewrite Hs, Hm in Hm'; by injection Hm' as <-.
  destruct (load_spec SAVE_PATH wa) as (m0 & wb' & Hload' & Hcase).
  rewrite Hload in Hload'. injection Hload' as <- <-.
  destruct Ha as (Hfa & _). rewrite Hfa, Hm in Hcase. destruct Hcase as [-> ->].
  pose proof (for_prompts_same_fs _ _ _ _ _ _ _ Hloop) as (Hfd & _).
  destruct Hb as (Hfc & _).
  assert (files wd !! ledger_file SAVE_PATH = Some (JsonFile m)) as Hwd.
  { by rewrite Hfd, Hfc, Hfa. }
  destruct Hend as [(_ & (Hfw & _)) | (-> & we & r' & wf & (Hfe & _) & Hsave & (Hff & _))].
  - rewrite Hfw, Hwd in Hm'. by injection Hm' as <-.
  - rewrite Hff in Hm'.
    apply save_spec in Hsave as [Hs | [Hs | Hs]]; rewrite Hs in Hm'.
    + injection Hm' as <-.
      apply for_prompts_spec in Hloop as (new & _ & _ & Hled).
      rewrite Hled. cbn. by rewrite Hid.
    + rewrite Hfe, Hwd in Hm'. by injection Hm' as <-.
    + done.
Qed.

(** X11.  When some record carries a [text] that is not a string, the loop is
    left by the exception: the rows accepted before it are returned, but
    the ledger is not saved, so the ledger on disk holds none of them. *)
Theorem rows_before_a_bad_record_are_not_recorded folder w store pd pn rows w' :
  stores w !! path_join folder STATE_DB_FILE = Some store ->
  stored_prompts (Some store) = Ok pd ->
  forallb wellformed_prompt (iter_items pd) = false ->
  process_database folder w = (Ok (pn, rows), w') ->
  forall r m', In r rows ->
    files w' !! ledger_file SAVE_PATH = Some (JsonFile m') ->
    m' !! md5_hexdigest (row_prompt r) = None.
Proof.
  intros Hst Hpd Hbad Hrun r m' Hr Hm'.
  apply (process_database_shape _ _ _ _ _ Hst) in Hrun
    as [(? & [= _ ->] & _) | (? & pd' & k & loaded & st & e & wa & wb & wc & wd
          & Hpd' & _ & _ & Ha & Hload & Hb & Hloop & [= _ ->] & Hend)]; [done|].
  rewrite Hpd in Hpd'. injection Hpd' as <-.
  pose proof (for_prompts_completes _ _ _ _ _ _ _ _ Hloop) as He.
  destruct Hend as [(_ & (Hfw & _)) | (-> & _)].
  2:{ destruct He as [He _]. rewrite He in Hbad; done. }
  pose proof (for_prompts_same_fs _ _ _ _ _ _ _ Hloop) as (Hfd & _).
  destruct Hb as (Hfc & _).
  rewrite Hfw, Hfd, Hfc in Hm'.
  destruct (load_spec SAVE_PATH wa) as (m0 & wb' & Hload' & Hcase).
  rewrite Hload in Hload'. injection Hload' as <- <-.
  apply for_prompts_spec in Hloop as (new & Hres & Hnew & _).
  cbn in Hres. rewrite Hres in Hr. destruct (Hnew r Hr) as [Hfresh _]. cbn in Hfresh.
  destruct (files wa !! ledger_file SAVE_PATH) as [[m0|df|df|b]|] eqn:Hwa.
  - destruct Hcase as [-> ->]. rewrite Hwa in Hm'. by injection Hm' as <-.
  - destruct Hcase as [_ Hc]. rewrite Hc, lookup_insert_ne, lookup_delete_eq in Hm';
      [done | apply append_nonempty_ne; done].
  - destruct Hcase as [_ Hc]. rewrite Hc, lookup_insert_ne, lookup_delete_eq in Hm';
      [done | apply append_nonempty_ne; done].
  - destruct Hcase as [_ Hc]. rewrite Hc, lookup_insert_ne, lookup_delete_eq in Hm';
      [done | apply append_nonempty_ne; done].
  - destruct Hcase as [_ Hc]. rewrite Hc, Hwa in Hm'. done.
Qed.

(** X4.  A store that cannot be queried, or whose prompts are absent, empty or
    unparsable, gives no rows, and the run leaves the file system as it
    was: the ledger is not even loaded. *)
Theorem store_without_prompts_touches_nothing folder w store :
  stores w !! path_join folder STATE_DB_FILE = Some store ->
  (forall pd, stored_prompts (Some store) = Ok pd -> truthy pd = false) ->
  exists pn w', process_database folder w = (Ok (pn, []), w') /\ same_fs w w'.
Proof.
  intros Hst Hempty.
  destruct (process_database folder w) as [r w'] eqn:Hrun.
  apply (process_database_shape _ _ _ _ _ Hst) in Hrun
    as [(pn & -> & Hs & _) | (? & pd & ? & ? & ? & ? & ? & ? & ? & ?
          & Hpd & Htr & _)].
  - by exists pn, w'.
  - apply Hempty in Hpd. congruence.
Qed.

(** ** A second run on the same day *)

Lemma append_assoc (a b c : string) : (a +:+ b) +:+ c = a +:+ (b +:+ c).
Proof.
  induction a as [|x a IH]; [by rewrite !append_nil|].
  rewrite !append_cons. by f_equal.
Qed.

Lemma ledger_file_tail sp : exists t, t <> "" /\ ledger_file sp = sp +:+ t.
Proof.
  unfold ledger_file, path_join, PROCESSED_PROMPTS_FILE.
  change (startswith "/" "processed_prompts.json") with false. cbv iota.
  destruct (_ || _); eexists; (split; [|reflexivity]); done.
Qed.


Lemma ledger_backup_ne sp u : ledger_file sp +:+ u <> sp.
Proof.
  destruct (ledger_file_tail sp) as (t & Ht & ->). rewrite append_assoc.
  apply append_nonempty_ne. destruct t; [done|]. by rewrite append_cons.
Qed.

Lemma SAVE_PATH_nonempty : SAVE_PATH <> "".
Proof.
  unfold SAVE_PATH. generalize (path_join (path_join HOME_DIR "Desktop") "RYJ").
  intros a. unfold path_join. change (startswith "/" "saveprompt") with false.
  cbv iota. destruct (_ || _); destruct a; done.
Qed.

(** With the save root ready the ledger is written, and nothing else is
    touched. *)
Lemma save_ready m w :
  save_root_ready w ->
  exists w', save_processed_prompts m SAVE_PATH w = (Ok tt, w')
             /\ files w' = <[ ledger_file SAVE_PATH := JsonFile m ]> (files w)
             /\ dirs w' = dirs w /\ stores w' = stores w.
Proof.
  intros (Hf & Hchain & Hnd & _ & Hpar).
  destruct (makedirs_known _ _ SAVE_PATH_nonempty Hf Hchain) as (w1 & Emk & Hf1 & Hd1 & Hs1).
  unfold save_processed_prompts. cbv zeta. fold (ledger_file SAVE_PATH).
  unfold bind at 1. rewrite Emk.
  unfold try_except, bind at 1, write_file. rewrite Hd1.
  rewrite (bool_decide_eq_false_2 _ Hnd), (bool_decide_eq_true_2 _ Hpar), orb_true_r.
  unfold logger. eexists. split; [reflexivity|]. cbn. by rewrite Hf1, Hd1, Hs1.
Qed.

(** Loading the ledger keeps the save root ready. *)
Lemma load_ready w m w' :
  save_root_ready w ->
  load_processed_prompts SAVE_PATH w = (Ok m, w') ->
  save_root_ready w' /\ stores w' = stores w
  /\ (forall m0, files w !! ledger_file SAVE_PATH = Some (JsonFile m0) ->
        m = m0 /\ files w' = files w).
Proof.
  intros (Hf & Hchain & Hnd & Hns & Hpar).
  unfold load_processed_prompts, save_root_ready. cbv zeta.
  fold (ledger_file SAVE_PATH).
  pose proof (ledger_backup_ne SAVE_PATH) as Hbak.
  remember (ledger_file SAVE_PATH) as L eqn:HeqL. clear HeqL.
  unfold bind at 1, path_exists at 1. rewrite Hns.
  rewrite (bool_decide_eq_false_2 (L ∈ dirs w) Hnd).
  rewrite (bool_decide_eq_false_2 (is_Some None)) by (by intros [? ?]).
  rewrite !orb_false_r.
  destruct (files w !! L) as [f|] eqn:HL.
  2:{ rewrite bool_decide_eq_false_2 by (by intros [? ?]).
      intros [= <- <-]. split; [by repeat split|]. split; [done|]. done. }
  rewrite bool_decide_eq_true_2 by (by eexists).
  unfold try_except, json_load. rewrite HL.
  destruct f as [m0|df|df|b].
  { intros [= <- <-]. split; [by repeat split|]. split; [done|].
    by intros ? [= <-]. }
  all: unfold bind at 1, logger at 1; unfold bind at 1, path_exists at 1;
    cbn [files stores dirs add_log]; rewrite HL;
    rewrite bool_decide_eq_true_2 by (by eexists); cbn [orb];
    unfold bind at 1, datetime_now at 1; unfold bind at 1, rename at 1;
    cbn [files stores dirs add_log tick]; rewrite HL;
    unfold bind, logger, ret; intros [= <- <-]; cbn;
    (split; [|split; [done | intros ? [=]]]);
    (split; [rewrite lookup_insert_ne by apply Hbak;
             rewrite lookup_delete_ne by (intros E; apply (Hbak ""); by rewrite append_empty_r); done
            | by repeat split]).
Qed.

(** One iteration on a record with a string [text], as an equation. *)
Lemma prompt_step_text mt today items text st w :
  dict_get "text" items = Some (JStr text) ->
  prompt_step mt today (JObj items) st w =
    let w0 := add_log INFO "prompt id created (MD5 of the text)" w in
    match processed_prompts st !! md5_hexdigest text with
    | Some _ => (Ok st, add_log INFO "skipping an already processed prompt" w0)
    | None =>
        let ts := if (mt =? 0)%Z then now_at (clock w0) else fromtimestamp mt in
        let w1 := if (mt =? 0)%Z then tick w0 else w0 in
        if String.eqb (strftime_Ymd ts) today
        then (Ok (mkLoop (results st ++ [mkRow (iso_date ts) (iso_time ts) text])
                    (<[md5_hexdigest text := today]> (processed_prompts st))
                    (S (new_processed_count st))),
              add_log INFO "prompt data added" w1)
        else (Ok st, add_log INFO "prompt date is not today, skipping" w1)
    end.
Proof.
  intros Ht. unfold prompt_step. rewrite Ht. cbv zeta.
  unfold bind at 1. cbn [logger].
  destruct (processed_prompts st !! md5_hexdigest text); [done|].
  unfold bind at 1, extract_timestamp_from_data.
  destruct (mt =? 0)%Z; cbn [negb]; unfold bind, datetime_now, ret; cbn [fst];
    rewrite split_ws_iso, replace_dash_iso;
    destruct (String.eqb _ today); done.
Qed.


Lemma save_root_ready_same_fs w w' :
  same_fs w w' -> save_root_ready w -> save_root_ready w'.
Proof.
  intros (Hf & Hd & Hs & _). unfold save_root_ready. by rewrite Hf, Hd, Hs.
Qed.


(** ** The rows of a run and the records of the store *)

Lemma prompt_text_shape p text :
  prompt_text p = Some text ->
  exists items, p = JObj items /\ dict_get "text" items = Some (JStr text).
Proof.
  unfold prompt_text. destruct p as [| | | |l|items]; try done.
  destruct (dict_get "text" items) as [[| | |t| |]|] eqn:Hg; try done.
  intros [= ->]. by eexists.
Qed.

Lemma prompt_step_no_text mt today p st w st' w' :
  prompt_text p = None ->
  prompt_step mt today p st w = (Ok st', w') -> st' = st.
Proof.
  unfold prompt_text, prompt_step.
  destruct p as [| | | |l|items]; try (by intros _ [= <- _]).
  destruct (dict_get "text" items) as [[| | |t| |]|]; try done;
    by intros _ [= <- _].
Qed.

(** The rows the loop appends are taken from the texts of the records, in
    their order; no two of them have the same id, and none has an id the
    ledger held. *)
Lemma for_prompts_rows mt today ps : forall st w st' e w',
  for_prompts mt today ps st w = ((st', e), w') ->
  exists new,
    results st' = results st ++ new
    /\ map row_prompt new `sublist_of` omap prompt_text ps
    /\ NoDup (map (fun r => md5_hexdigest (row_prompt r)) new)
    /\ (forall r, In r new ->
          processed_prompts st !! md5_hexdigest (row_prompt r) = None).
Proof.
  induction ps as [|p ps IH]; intros st w st' e w'; cbn [for_prompts].
  { intros [= <- <- <-]. exists []. rewrite app_nil_r.
    split; [done|]. split; [done|]. split; [constructor | by intros ? []]. }
  assert (exists new : list Row, results st = results st ++ new
            /\ map row_prompt new `sublist_of` omap prompt_text (p :: ps)
            /\ NoDup (map (fun r => md5_hexdigest (row_prompt r)) new)
            /\ (forall r, In r new ->
                  processed_prompts st !! md5_hexdigest (row_prompt r) = None)) as Hnil.
  { exists []. rewrite app_nil_r. split; [done|]. split; [apply sublist_nil_l|].
    split; [constructor | by intros ? []]. }
  destruct (prompt_step mt today p st w) as [[st1|ex] w1] eqn:Ep.
  2:{ by intros [= <- <- <-]. }
  intros Hrest. destruct (IH _ _ _ _ _ Hrest) as (new & Hres & Hsub & Hnd & Hfresh).
  destruct (prompt_text p) as [text|] eqn:Hp.
  2:{ apply (prompt_step_no_text _ _ _ _ _ _ _ Hp) in Ep as ->.
      exists new. cbn [omap list_omap]. rewrite Hp. done. }
  destruct (prompt_text_shape _ _ Hp) as (items & -> & Hg).
  rewrite (prompt_step_text _ _ _ _ _ _ Hg) in Ep. cbv zeta in Ep.
  cbn [omap list_omap]. rewrite Hp.
  destruct (processed_prompts st !! md5_hexdigest text) eqn:H0.
  { injection Ep as <- <-. exists new.
    split; [done|]. split; [by apply sublist_cons|]. done. }
  match type of Ep with (if ?c then _ else _) = _ => destruct c end.
  2:{ injection Ep as <- <-. exists new.
      split; [done|]. split; [by apply sublist_cons|]. done. }
  injection Ep as <- <-. cbn [results processed_prompts] in *.
  eexists (_ :: new). split; [by rewrite Hres, <- app_assoc|].
  split; [cbn; by apply sublist_skip|].
  split.
  - cbn. constructor; [|done].
    intros Hin. apply list_elem_of_In, in_map_iff in Hin as (r & Heq & Hr).
    specialize (Hfresh r Hr). rewrite Heq, lookup_insert_eq in Hfresh. done.
  - intros r [<- | Hr]; [done|]. specialize (Hfresh r Hr).
    by apply lookup_insert_None in Hfresh as [? _].
Qed.

(** X5.  The rows of a run are texts of the store's records, in the order of
    the store. *)
Theorem rows_follow_the_store folder w store pd pn rows w' :
  stores w !! path_join folder STATE_DB_FILE = Some store ->
  stored_prompts (Some store) = Ok pd ->
  process_database folder w = (Ok (pn, rows), w') ->
  map row_prompt rows `sublist_of` omap prompt_text (iter_items pd).
Proof.
  intros Hst Hpd Hrun.
  apply (process_database_shape _ _ _ _ _ Hst) in Hrun
    as [(? & [= _ ->] & _) | (? & pd' & k & loaded & st & e & wa & wb & wc & wd
          & Hpd' & _ & _ & _ & _ & _ & Hloop & [= _ ->] & _)].
  { apply sublist_nil_l. }
  rewrite Hpd in Hpd'. injection Hpd' as <-.
  apply for_prompts_rows in Hloop as (new & Hres & Hsub & _).
  cbn in Hres. by rewrite Hres.
Qed.

(** X6.  No two rows of a run have the same content id, so no text is returned
    twice, however often the store repeats it. *)
Theorem rows_have_distinct_ids folder w pn rows w' :
  process_database folder w = (Ok (pn, rows), w') ->
  NoDup (map (fun r => md5_hexdigest (row_prompt r)) rows).
Proof.
  intros Hrun.
  apply process_database_spec in Hrun
    as [([=] & _) | [(? & ? & _ & [= _ ->] & _) | (? & store' & k & ps & loaded & st
          & e & wa & wb & wc & wd & _ & _ & _ & _ & Hloop & [= _ ->] & _)]].
  { constructor. }
  apply for_prompts_rows in Hloop as (new & Hres & _ & Hnd & _).
  cbn in Hres. by rewrite Hres.
Qed.




(** ** Dates *)

Lemma iso_date_shape ts : is_iso_date (iso_date ts) = true.
Proof.
  unfold is_iso_date, iso_date, fmt4, fmt2.
  cbv [String.append]. cbn -[is_digit digit Nat.div Nat.modulo].
  by rewrite !is_digit_digit.
Qed.

(** X7.  Every row of a run is dated the day of the run: its [date] has the
    form [YYYY-MM-DD], and without the dashes it is the date the clock
    showed, whichever timestamp the row was taken from.  The table a row
    goes to is therefore always the table of the day of the run. *)
Theorem rows_are_dated_the_day_of_the_run folder w pn rows w' :
  process_database folder w = (Ok (pn, rows), w') ->
  exists k, forall r, In r rows ->
    is_iso_date (row_date r) = true
    /\ str_replace "-" "" (row_date r) = strftime_Ymd (now_at k).
Proof.
  intros Hrun.
  apply process_database_spec in Hrun
    as [([=] & _) | [(? & ? & _ & [= _ ->] & _) | (? & store' & k & ps & loaded & st
          & e & wa & wb & wc & wd & _ & _ & _ & _ & Hloop & [= _ ->] & _)]].
  { exists 0. by intros ? []. }
  exists k. intros r Hr.
  apply for_prompts_spec in Hloop as (new & Hres & Hnew & _).
  cbn in Hres. rewrite Hres in Hr.
  destruct (Hnew r Hr) as (_ & ts & _ & Hd & -> & _).
  split; [apply iso_date_shape|].
  pose proof (replace_dash_iso ts) as Hrep. by rewrite <- Hd.
Qed.

(** X10.  A store last modified on another day gives no rows and records
    nothing: a valid ledger is left with the entries it had, so the
    prompts of that store stay unseen. *)
Theorem stale_store_records_nothing folder w store r w' :
  stores w !! path_join folder STATE_DB_FILE = Some store ->
  st_mtime store <> 0%Z ->
  (forall k, strftime_Ymd (fromtimestamp (st_mtime store)) <> strftime_Ymd (now_at k)) ->
  process_database folder w = (r, w') ->
  (exists pn, r = Ok (pn, []))
  /\ forall m m',
       files w !! ledger_file SAVE_PATH = Some (JsonFile m) ->
       files w' !! ledger_file SAVE_PATH = Some (JsonFile m') ->
       m' = m.
Proof.
  intros Hst Hmt Hstale Hrun.
  apply process_database_spec in Hrun
    as [(_ & _ & Hn) | [(pn & ? & _ & -> & (Hf & _)) | (pn & store' & k & ps & loaded & st
          & e & wa & wb & wc & wd & Hst' & Ha & Hload & Hb & Hloop & -> & Hend)]].
  { congruence. }
  { split; [by eexists|]. intros m m' Hm Hm'. rewrite Hf, Hm in Hm'. congruence. }
  rewrite Hst in Hst'. injection Hst' as <-.
  destruct (stale_store_adds_nothing _ _ _ _ _ _ _ _ Hmt (Hstale k) Hloop) as [Hres Hled].
  cbn in Hres, Hled. rewrite Hres. split; [by eexists|].
  intros m m' Hm Hm'.
  destruct (load_spec SAVE_PATH wa) as (m0 & wb' & Hload' & Hcase).
  rewrite Hload in Hload'. injection Hload' as <- <-.
  destruct Ha as (Hfa & _). rewrite Hfa, Hm in Hcase. destruct Hcase as [-> ->].
  pose proof (for_prompts_same_fs _ _ _ _ _ _ _ Hloop) as (Hfd & _).
  destruct Hb as (Hfc & _).
  assert (files wd !! ledger_file SAVE_PATH = Some (JsonFile m)) as Hwd.
  { by rewrite Hfd, Hfc, Hfa. }
  destruct Hend as [(_ & (Hfw & _)) | (-> & we & r' & wf & (Hfe & _) & Hsave & (Hff & _))].
  - rewrite Hfw, Hwd in Hm'. congruence.
  - rewrite Hff in Hm'.
    apply save_spec in Hsave as [Hs | [Hs | Hs]]; rewrite Hs in Hm'.
    + congruence.
    + rewrite Hfe, Hwd in Hm'. congruence.
    + done.
Qed.

(** ** The ledger file *)

(** X15.  What [save_processed_prompts] writes, [load_processed_prompts] reads
    back, and reading changes nothing. *)
Theorem saved_ledger_is_loaded_back m w :
  save_root_ready w ->
  exists w1,
    save_processed_prompts m SAVE_PATH w = (Ok tt, w1)
    /\ load_processed_prompts SAVE_PATH w1 = (Ok m, w1).
Proof.
  intros Hready.
  destruct (save_ready m w Hready) as (w1 & Hsave & Hf & _).
  exists w1. split; [done|].
  destruct (load_spec SAVE_PATH w1) as (m0 & w2 & Hload & Hcase).
  rewrite Hf, lookup_insert_eq in Hcase. destruct Hcase as [-> ->]. done.
Qed.

(** ** Discovery of the workspaces *)

Lemma scan_items_spec wp items : forall acc w,
  exists w',
    scan_items wp items acc w =
      (Ok (acc ++ map (path_join wp)
             (List.filter
                (fun item =>
                   bool_decide (path_join wp item ∈ dirs w)
                   && (bool_decide (is_Some (files w !! path_join (path_join wp item) STATE_DB_FILE))
                       || bool_decide (is_Some (stores w !! path_join (path_join wp item) STATE_DB_FILE))
                       || bool_decide (path_join (path_join wp item) STATE_DB_FILE ∈ dirs w)))
                items)), w')
    /\ same_fs w w'.
Proof.
  induction items as [|item rest IH]; intros acc w; cbn [scan_items List.filter map].
  { exists w. rewrite app_nil_r. split; [done | apply same_fs_refl]. }
  unfold bind at 1, isdir at 1.
  destruct (bool_decide (path_join wp item ∈ dirs w)); cbn [andb]; [|apply IH].
  unfold bind at 1, path_exists at 1.
  destruct (_ || _ || _); [|apply IH].
  unfold bind at 1, logger at 1.
  destruct (IH (acc ++ [path_join wp item]) (add_log INFO "found folder" w))
    as (w' & E & Hs).
  exists w'. cbn [files stores dirs add_log] in E. rewrite E.
  split; [|exact Hs]. cbn [map]. by rewrite <- app_assoc.
Qed.

(** X1.  [find_today_folders] never raises and changes nothing on disk.  It
    returns, in the order of the listing, every entry of the workspace
    directory that is a directory holding a [state.vscdb], whatever the
    date of that store; when the directory cannot be listed it returns the
    empty list. *)
Theorem find_today_folders_lists_every_store wp w :
  exists w',
    find_today_folders wp w =
      (Ok (match listing w !! wp with
           | Some items =>
               map (path_join wp)
                 (List.filter
                    (fun item =>
                       bool_decide (path_join wp item ∈ dirs w)
                       && (bool_decide (is_Some (files w !! path_join (path_join wp item) STATE_DB_FILE))
                           || bool_decide (is_Some (stores w !! path_join (path_join wp item) STATE_DB_FILE))
                           || bool_decide (path_join (path_join wp item) STATE_DB_FILE ∈ dirs w)))
                    items)
           | None => []
           end), w')
    /\ same_fs w w'.
Proof.
  unfold find_today_folders. unfold bind at 1, logger at 1.
  unfold bind at 1, try_except, bind at 1, listdir. cbn [listing add_log].
  destruct (listing w !! wp) as [items|].
  - destruct (scan_items_spec wp items [] (add_log INFO "searching the Cursor data path" w))
      as (w1 & E & Hs).
    cbn [files stores dirs add_log] in E. rewrite E.
    eexists. split; [reflexivity|].
    destruct Hs as (? & ? & ? & ?). by repeat split.
  - eexists. split; [reflexivity|]. by repeat split.
Qed.

(** ** The project name *)




(** ** The footprint of [save_to_excel] *)

Lemma write_file_stores p f w r w' :
  write_file p f w = (r, w') -> stores w' = stores w.
Proof.
  unfold write_file. destruct (bool_decide _); [by intros [= _ <-]|].
  destruct (_ || _); by intros [= _ <-].
Qed.

Lemma to_excel_cases p df w r w' :
  to_excel p df w = (r, w') ->
  (r = Ok tt /\ files w' = <[p := XlsxFile df]> (files w) /\ stores w' = stores w)
  \/ (exists e, r = Raise e /\ w' = w).
Proof.
  unfold to_excel. destruct (to_excel_ok p df).
  - intros E. pose proof (write_file_stores _ _ _ _ _ E) as Hs.
    apply write_file_cases in E as [(-> & Hf & _) | (e & -> & ->)]; [by left|].
    right. by eexists.
  - intros [= <- <-]. right. by eexists.
Qed.

(** [write_frame] writes the frame at the path it returns, as a workbook
    or as CSV, or raises without having written anything. *)
Lemma write_frame_cases fp df w r w' :
  write_frame fp df w = (r, w') ->
  stores w' = stores w
  /\ ((exists p, r = Ok (Some p)
         /\ (files w' = <[p := XlsxFile df]> (files w)
             \/ files w' = <[p := CsvFile df]> (files w)))
      \/ (exists e, r = Raise e /\ files w' = files w)).
Proof.
  unfold write_frame. intros E.
  apply try_except_inv in E as [(a & E & ->) | (e & w1 & E & Eh)].
  - apply bind_inv in E as [([] & w2 & E1 & E) | (? & _ & [=])].
    apply bind_inv in E as [([] & w3 & E2 & [= <- <-]) | (? & [=] & _)].
    apply logger_inv in E2 as [_ ->]. cbn.
    apply to_excel_cases in E1 as [(_ & Hf & Hs) | (? & [=] & _)].
    split; [done|]. left. eexists. split; [done|]. by left.
  - assert (w1 = w) as ->.
    { apply bind_inv in E as [([] & w2 & E1 & E) | (? & E1 & _)].
      - apply bind_inv in E as [([] & w3 & E2 & [=]) | (? & [=] & _)].
      - by apply to_excel_cases in E1 as [([=] & _) | (? & _ & ->)]. }
    apply bind_inv in Eh as [([] & w2 & E1 & Eh) | (? & [=] & _)].
    apply logger_inv in E1 as [_ ->].
    apply bind_inv in Eh as [([] & w3 & E2 & Eh) | (e' & E2 & ->)].
    + apply bind_inv in Eh as [([] & w4 & E3 & [= <- <-]) | (? & [=] & _)].
      apply logger_inv in E3 as [_ ->]. cbn.
      pose proof (write_file_stores _ _ _ _ _ E2) as Hs.
      apply write_file_cases in E2 as [(_ & Hf & _) | (? & [=] & _)].
      split; [done|]. left. eexists. split; [done|]. by right.
    + pose proof (write_file_stores _ _ _ _ _ E2) as Hs.
      apply write_file_cases in E2 as [([=] & _) | (? & _ & ->)].
      split; [done|]. right. by eexists.
Qed.

Lemma save_to_excel_cases pn data sp w :
  exists r w',
    save_to_excel pn data sp w = (Ok r, w')
    /\ stores w' = stores w
    /\ match r with
       | Some p =>
           exists df, files w' = <[p := XlsxFile df]> (files w)
                      \/ files w' = <[p := CsvFile df]> (files w)
       | None => files w' = files w
       end.
Proof.
  unfold save_to_excel. destruct data as [|first rest].
  { eexists _, _. split; [reflexivity|]. done. }
  cbv zeta.
  set (data := first :: rest).
  set (fp := path_join (path_join sp pn) _).
  match goal with |- context [try_except ?c ?h] => set (body := c) end.
  assert (forall r w', body w = (r, w') ->
            stores w' = stores w
            /\ ((exists p df, r = Ok (Some p)
                   /\ (files w' = <[p := XlsxFile df]> (files w)
                       \/ files w' = <[p := CsvFile df]> (files w)))
                \/ (exists e, r = Raise e /\ files w' = files w))) as Hbody.
  { intros r w' E. unfold body in E.
    apply bind_inv in E as [([] & w1 & E1 & E) | (? & E1 & ->)].
    2:{ apply makedirs_files in E1 as [-> ->]. split; [done|]. right. by eexists. }
    apply makedirs_files in E1 as [Hf1 Hs1].
    apply bind_inv in E as [([] & w2 & E2 & E) | (? & [=] & _)].
    apply logger_inv in E2 as [_ ->].
    apply bind_inv in E as [([] & w3 & E2 & E) | (? & [=] & _)].
    apply logger_inv in E2 as [_ ->].
    apply bind_inv in E as [(present & w4 & [= <- <-] & E) | (? & [=] & _)].
    destruct (_ || _).
    - apply bind_inv in E as [([] & w5 & E2 & E) | (? & [=] & _)].
      apply logger_inv in E2 as [_ ->].
      apply bind_inv in E as [(existing & w6 & E2 & E) | (? & E2 & ->)].
      + assert (w6 = add_log INFO "existing file found, updating"
                       (add_log INFO "excel file path"
                          (add_log INFO "project folder created" w1))) as ->.
        { unfold read_excel in E2.
          destruct (files _ !! fp) as [[| | |]|]; by injection E2 as _ <-. }
        apply write_frame_cases in E as [Hs [(p & -> & Hf) | (e & -> & Hf)]];
          cbn in Hs, Hf; rewrite Hf1 in Hf; rewrite Hs1 in Hs; (split; [done|]).
        * left. by eexists _, _.
        * right. by eexists.
      + unfold read_excel in E2. cbn in E2. rewrite Hf1 in E2.
        destruct (files w !! fp) as [[| | |]|]; injection E2 as _ <-;
          cbn; (split; [done|]); right; by eexists.
    - apply bind_inv in E as [([] & w5 & E2 & E) | (? & [=] & _)].
      apply logger_inv in E2 as [_ ->].
      apply write_frame_cases in E as [Hs [(p & -> & Hf) | (e & -> & Hf)]];
        cbn in Hs, Hf; rewrite Hf1 in Hf; rewrite Hs1 in Hs; (split; [done|]).
      + left. by eexists _, _.
      + right. by eexists. }
  unfold try_except.
  pose proof (Hbody _ _ (surjective_pairing (body w))) as Hb. clear Hbody.
  destruct (body w) as [[a|e] w1]; cbn [fst snd] in Hb.
  - destruct Hb as [Hs [(p & df & [= ->] & Hf) | (? & [=] & _)]].
    eexists _, _. split; [reflexivity|]. split; [done|]. by exists df.
  - destruct Hb as [Hs [(p & df & [=] & _) | (? & _ & Hf)]].
    eexists _, _. split; [reflexivity|]. done.
Qed.

(** X21.  [save_to_excel] never raises, never touches a store, and changes at
    most one file: the one whose path it returns, which then holds a
    workbook or, after the fallback, a CSV table.  When it returns nothing,
    every file is as it was. *)
Theorem save_to_excel_changes_only_what_it_reports pn data sp w :
  exists r w',
    save_to_excel pn data sp w = (Ok r, w')
    /\ stores w' = stores w
    /\ match r with
       | Some p =>
           exists df, files w' = <[p := XlsxFile df]> (files w)
                      \/ files w' = <[p := CsvFile df]> (files w)
       | None => files w' = files w
       end.
Proof. apply save_to_excel_cases. Qed.

(** ** A table that does not exist yet *)


(** ** Sanitizing and merging twice *)

Lemma filter_firstn_filter {A} (f : A -> bool) l : forall n,
  List.filter f (firstn n (List.filter f l)) = firstn n (List.filter f l).
Proof.
  induction l as [|x l IH]; intros n; cbn.
  - by rewrite firstn_nil.
  - destruct (f x) eqn:Hx; [|apply IH].
    destruct n as [|n]; [done|]. cbn. by rewrite Hx, IH.
Qed.

(** X16.  Sanitizing is idempotent: a row read back from a table the module
    wrote is the row that was written, so it is recognised as a duplicate
    when the same prompt is saved again. *)
Theorem sanitize_item_idempotent item :
  sanitize_item (sanitize_item item) = sanitize_item item.
Proof.
  assert (forall s, sanitize_cell (sanitize_cell s) = sanitize_cell s) as Hcell.
  { intros s.
    rewrite <- (string_of_list_ascii_of_string (sanitize_cell (sanitize_cell s))).
    rewrite <- (string_of_list_ascii_of_string (sanitize_cell s)) at 2.
    f_equal. rewrite (sanitize_cell_chars (sanitize_cell s)), sanitize_cell_chars.
    generalize max_cell_length. intros n.
    by rewrite filter_firstn_filter, firstn_firstn, Nat.min_id. }
  unfold sanitize_item. cbn. by rewrite !Hcell.
Qed.








(** ** The whole run *)








(** X25.  [main] never raises: whatever [extract_prompts] raises is logged. *)
Theorem main_never_raises w : exists w', main w = (Ok tt, w').
Proof.
  unfold main, try_except.
  match goal with |- context [let (r, w') := ?c w in _] => destruct (c w) as [[[]|e] w1] end.
  - by eexists.
  - by eexists.
Qed.

(** ** The ledger after a run *)

(** X13.  With a usable save root and a well-formed store, the ledger a run
    leaves on disk is the ledger it found together with the ids of the
    rows it returned, each under the date of the run: nothing else is
    added, and nothing is recorded without a row. *)
Theorem ledger_records_exactly_the_rows folder w store ledger pn rows w' :
  stores w !! path_join folder STATE_DB_FILE = Some store ->
  (forall pd, stored_prompts (Some store) = Ok pd ->
     forallb wellformed_prompt (iter_items pd) = true) ->
  save_root_ready w ->
  files w !! ledger_file SAVE_PATH = Some (JsonFile ledger) ->
  process_database folder w = (Ok (pn, rows), w') ->
  exists k ledger',
    files w' !! ledger_file SAVE_PATH = Some (JsonFile ledger')
    /\ forall id,
         ledger' !! id =
           match ledger !! id with
           | Some v => Some v
           | None =>
               if existsb (fun r => String.eqb (md5_hexdigest (row_prompt r)) id) rows
               then Some (strftime_Ymd (now_at k)) else None
           end.
Proof.
  intros Hst Hwf Hready Hfile Hrun.
  apply (process_database_shape _ _ _ _ _ Hst) in Hrun
    as [(pn0 & [= _ ->] & (Hf & _) & _) | (pn0 & pd & k & loaded & st & e & wa & wb & wc & wd
          & Hpd & _ & _ & Ha & Hload & Hb & Hloop & [= _ ->] & Hend)].
  { exists 0, ledger. rewrite Hf. split; [done|]. intros id. cbn.
    by destruct (ledger !! id). }
  pose proof (for_prompts_completes _ _ _ _ _ _ _ _ Hloop) as [_ He].
  specialize (He (Hwf _ Hpd)). subst e.
  destruct Hend as [[Hne _] | (_ & we & r' & wf & He & Hsave & Hf)]; [done|].
  pose proof (save_root_ready_same_fs _ _ Ha Hready) as Hra.
  destruct (load_ready _ _ _ Hra Hload) as (Hrb & _ & Hm).
  destruct (Hm ledger) as [-> _]; [destruct Ha as (-> & _); done|].
  pose proof (save_root_ready_same_fs _ _ Hb Hrb) as Hrc.
  pose proof (for_prompts_same_fs _ _ _ _ _ _ _ Hloop) as Hd.
  pose proof (save_root_ready_same_fs _ _ Hd Hrc) as Hrd.
  pose proof (save_root_ready_same_fs _ _ He Hrd) as Hre.
  destruct (save_ready (processed_prompts st) we Hre) as (wf' & Hsave' & Hff & _).
  rewrite Hsave in Hsave'. injection Hsave' as _ <-.
  exists k, (processed_prompts st). split.
  { destruct Hf as (-> & _). rewrite Hff. apply lookup_insert_eq. }
  apply for_prompts_spec in Hloop as (new & Hres & _ & Hled).
  cbn in Hres, Hled. rewrite Hres. exact Hled.
Qed.

(** ** A target that cannot be read *)

(** X20.  When the target path holds something [pd.read_excel] cannot read,
    [save_to_excel] returns nothing and leaves every file as it was: the
    rows it was given are not written anywhere. *)
Theorem unreadable_table_is_left_alone pn data sp w f :
  let file_path :=
    path_join (path_join sp pn)
      (pn +:+ "_" +:+ str_replace "-" "" (row_date (hd (mkRow "" "" "") data))
          +:+ "_prompt.xlsx") in
  files w !! file_path = Some f ->
  (forall df, f <> XlsxFile df) ->
  exists w', save_to_excel pn data sp w = (Ok None, w') /\ files w' = files w.
Proof.
  intros file_path Hfile Hbad.
  destruct (save_to_excel_cases pn data sp w) as (r & w' & E & _ & Hr).
  destruct r as [p|]; [exfalso | by exists w'].
  revert E. unfold save_to_excel. destruct data as [|first rest].
  { intros E. apply bind_inv in E as [([] & ? & _ & [=]) | (? & [=] & _)]. }
  cbv zeta. cbn [hd] in file_path. fold file_path. intros E.
  apply try_except_inv in E as [(a & E & _) | (e & w1 & _ & Eh)].
  2:{ apply bind_inv in Eh as [([] & ? & _ & [=]) | (? & [=] & _)]. }
  apply bind_inv in E as [([] & w1 & E1 & E) | (? & _ & [=])].
  apply makedirs_files in E1 as [Hf1 _].
  apply bind_inv in E as [([] & w2 & E2 & E) | (? & [=] & _)].
  apply logger_inv in E2 as [_ ->].
  apply bind_inv in E as [([] & w3 & E2 & E) | (? & [=] & _)].
  apply logger_inv in E2 as [_ ->].
  apply bind_inv in E as [(present & w4 & [= <- <-] & E) | (? & [=] & _)].
  cbn [files stores dirs add_log] in E. rewrite Hf1, Hfile in E.
  rewrite bool_decide_eq_true_2 in E by (by eexists). cbn [orb] in E.
  apply bind_inv in E as [([] & w5 & E2 & E) | (? & [=] & _)].
  apply logger_inv in E2 as [_ ->].
  apply bind_inv in E as [(existing & w6 & E2 & E) | (? & _ & [=])].
  unfold read_excel in E2. cbn [files add_log] in E2. rewrite Hf1, Hfile in E2.
  destruct f as [m|df|df|b]; try done. by destruct (Hbad df).
Qed.

(** ** What can escape [extract_prompts] *)





(** X27.  The path [save_to_excel] reports is the target
    [<save_path>/<project>/<project>_<date>_prompt.xlsx], the date being
    that of the first row without its dashes, or what
    [replace('.xlsx', '.csv')] makes of that path. *)
Theorem reported_path_is_the_dated_table pn data sp w p w' :
  let file_path :=
    path_join (path_join sp pn)
      (pn +:+ "_" +:+ str_replace "-" "" (row_date (hd (mkRow "" "" "") data))
          +:+ "_prompt.xlsx") in
  save_to_excel pn data sp w = (Ok (Some p), w') ->
  p = file_path \/ p = str_replace ".xlsx" ".csv" file_path.
Proof.
  intros file_path. unfold save_to_excel. destruct data as [|first rest].
  { intros E. apply bind_inv in E as [([] & ? & _ & [=]) | (? & [=] & _)]. }
  cbv zeta. cbn [hd] in file_path. fold file_path. intros E.
  apply try_except_inv in E as [(a & E & [= <-]) | (e & w1 & _ & Eh)].
  2:{ apply bind_inv in Eh as [([] & ? & _ & [=]) | (? & [=] & _)]. }
  apply bind_inv in E as [([] & w1 & _ & E) | (? & _ & [=])].
  apply bind_inv in E as [([] & w2 & _ & E) | (? & [=] & _)].
  apply bind_inv in E as [([] & w3 & _ & E) | (? & [=] & _)].
  apply bind_inv in E as [(present & w4 & _ & E) | (? & [=] & _)].
  destruct present.
  - apply bind_inv in E as [([] & w5 & _ & E) | (? & [=] & _)].
    apply bind_inv in E as [(existing & w6 & _ & E) | (? & _ & [=])].
    apply write_frame_spec in E as [[-> _] | [-> _]]; [by left | by right].
  - apply bind_inv in E as [([] & w5 & _ & E) | (? & [=] & _)].
    apply write_frame_spec in E as [[-> _] | [-> _]]; [by left | by right].
Qed.
End Facts.

(** * The statements at concrete inputs *)

Lemma ledger_hit_never_emitted_witness :
  let rt := demo_runtime true in
  let w := world_ab {[ demo_ledger_path := JsonFile old_ledger ]} in
  let run := @process_database rt "/ws/A" w in
  files w !! ledger_file (@SAVE_PATH rt) = Some (JsonFile old_ledger)
  /\ is_Some (old_ledger !! @md5_hexdigest rt "a")
  /\ run = (Ok ("A", [mkRow "2024-01-01" "10:00:00" "b"]), snd run)
  /\ forall r, In r [mkRow "2024-01-01" "10:00:00" "b"] -> row_prompt r <> "a".
Proof.
  intros rt w run.
  assert (files w !! ledger_file (@SAVE_PATH rt) = Some (JsonFile old_ledger)) as H1
    by (vm_compute; reflexivity).
  assert (is_Some (old_ledger !! @md5_hexdigest rt "a")) as H2
    by (exists "19990101"; vm_compute; reflexivity).
  assert (run = (Ok ("A", [mkRow "2024-01-01" "10:00:00" "b"]), snd run)) as H3
    by (vm_compute; reflexivity).
  split; [exact H1|]. split; [exact H2|]. split; [exact H3|].
  exact (@ledger_hit_never_emitted rt "/ws/A" w old_ledger "a" "A" _ (snd run) H1 H2 H3).
Defined.




(** ** Where the code departs from the specification *)

(** C3.  When [os.path.getmtime] raises, the handler of [process_database]
    runs, but the final [return project_name, results] then finds
    [project_name] unbound: the function raises.  [extract_prompts] has no
    handler around the call, so the loop over the workspaces stops: the
    second workspace, which alone yields a file, is never processed. *)
Theorem missing_store_aborts_the_run :
  let rt := demo_runtime true in
  fst (@process_database rt "/ws/A" world_vanished) = Raise UnboundLocalError
  /\ fst (@process_folders rt "/out" ["/ws/A"; "/ws/B"] [] world_vanished)
     = Raise UnboundLocalError
  /\ files (snd (@process_folders rt "/out" ["/ws/A"; "/ws/B"] [] world_vanished)) = ∅
  /\ fst (@process_folders rt "/out" ["/ws/B"] [] world_vanished)
     = Ok ["/out/B/B_20240101_prompt.xlsx"].
Proof. repeat split; vm_compute; reflexivity. Qed.

(** C4.  [process_database] calls the ledger functions without a save path,
    so they use the default [SAVE_PATH]: a run with the save root [/other]
    writes its table under [/other] and its ledger under [SAVE_PATH], and a
    ledger lying under [/other] is not read (the text [a], which that
    ledger holds, is emitted all the same). *)
Theorem ledger_ignores_the_save_root :
  let rt := demo_runtime true in
  let run := @extract_prompts rt "/ws" "/other" (world_ab ∅) in
  let run' := @extract_prompts rt "/ws" "/other"
                (world_ab {[ ledger_file "/other" := JsonFile old_ledger ]}) in
  fst run = Ok ["/other/A/A_20240101_prompt.xlsx"]
  /\ files (snd run) !! ledger_file "/other" = None
  /\ files (snd run) !! ledger_file (@SAVE_PATH rt)
     = Some (JsonFile {[ "md5:a" := "20240101"; "md5:b" := "20240101" ]})
  /\ files (snd run') !! ledger_file "/other" = Some (JsonFile old_ledger)
  /\ files (snd run') !! "/other/A/A_20240101_prompt.xlsx"
     = Some (XlsxFile (frame_of_rows [mkRow "2024-01-01" "10:00:00" "a";
                                      mkRow "2024-01-01" "10:00:00" "b"])).
Proof. repeat split; vm_compute; reflexivity. Qed.

(** C6.  A store whose modification time is 0 makes the test
    [if db_mod_time:] fail, and the timestamp is read from the clock: the
    row carries the time of the run, and a prompt captured on 1970-01-01
    is emitted as today's. *)
Theorem epoch_mtime_takes_the_clock :
  let rt := demo_runtime true in
  strftime_iso (@fromtimestamp rt 0) = "1970-01-01 00:00:00"
  /\ fst (@extract_timestamp_from_data rt (Some 0%Z) world_epoch)
     = Ok (mkdatetime 2024 1 1 12 0 0, CURRENT_TIME)
  /\ fst (@process_database rt "/ws/A" world_epoch)
     = Ok ("A", [mkRow "2024-01-01" "12:00:01" "a"]).
Proof. repeat split; vm_compute; reflexivity. Qed.

(** C10.  With the same store the capture date 1970-01-01 is not today
    (2024-01-01) and the id of [a] is not in the ledger, yet the ledger
    gains the id. *)
Theorem epoch_mtime_enters_the_ledger :
  let rt := demo_runtime true in
  let run := @process_database rt "/ws/A" world_epoch in
  strftime_Ymd (@fromtimestamp rt 0) = "19700101"
  /\ strftime_Ymd (@now_at rt 0) = "20240101"
  /\ files world_epoch !! ledger_file (@SAVE_PATH rt) = None
  /\ files (snd run) !! ledger_file (@SAVE_PATH rt)
     = Some (JsonFile {[ @md5_hexdigest rt "a" := "20240101" ]}).
Proof. repeat split; vm_compute; reflexivity. Qed.

(** C8.  The fallback path is [file_path.replace('.xlsx', '.csv')], which
    rewrites every occurrence.  Under the save root [/d/out.xlsx] the CSV
    path lies in another directory, which does not exist: [to_csv] raises,
    the outer handler returns nothing and no file is written.  Under the
    save root [/d/out] the fallback works as specified. *)
Theorem csv_fallback_misses_the_base_path :
  let rt := demo_runtime false in
  let run := @save_to_excel rt "p" [row_x] "/d/out.xlsx" (world_ab ∅) in
  let run' := @save_to_excel rt "p" [row_x] "/d/out" (world_ab ∅) in
  str_replace ".xlsx" ".csv" "/d/out.xlsx/p/p_20240101_prompt.xlsx"
    = "/d/out.csv/p/p_20240101_prompt.csv"
  /\ fst run = Ok None
  /\ files (snd run) = ∅
  /\ fst run' = Ok (Some "/d/out/p/p_20240101_prompt.csv")
  /\ files (snd run') !! "/d/out/p/p_20240101_prompt.csv"
     = Some (CsvFile (frame_of_rows [row_x])).
Proof. repeat split; vm_compute; reflexivity. Qed.


(** A table in an older format is brought to the three columns: the
    missing [time] reads as empty and [response] is dropped. *)
Example merge_coerces_columns :
  let rt := demo_runtime true in
  let run := @save_to_excel rt "p" [row_b] "/out" (world_table old_format) in
  fst run = Ok (Some table_path)
  /\ files (snd run) !! table_path
     = Some (XlsxFile (frame_of_rows [mkRow "2024-01-01" "" "a"; row_b])).
Proof. split; vm_compute; reflexivity. Qed.


(** * The further properties at concrete inputs *)

Lemma process_database_returns_witness :
  let rt := demo_runtime true in
  let w := world_ab ∅ in
  stores w !! path_join "/ws/A" STATE_DB_FILE = Some (demo_store t_today "AB")
  /\ exists pn rows w', @process_database rt "/ws/A" w = (Ok (pn, rows), w').
Proof.
  intros rt w.
  assert (stores w !! path_join "/ws/A" STATE_DB_FILE = Some (demo_store t_today "AB"))
    as H1 by (vm_compute; reflexivity).
  split; [exact H1|].
  exact (@process_database_returns rt "/ws/A" w _ H1).
Defined.

Lemma ledger_entries_are_kept_witness :
  let rt := demo_runtime true in
  let w := world_ab {[ demo_ledger_path := JsonFile old_ledger ]} in
  let run := @process_database rt "/ws/A" w in
  let m' : gmap string string := {[ "md5:a" := "19990101"; "md5:b" := "20240101" ]} in
  files w !! ledger_file (@SAVE_PATH rt) = Some (JsonFile old_ledger)
  /\ old_ledger !! "md5:a" = Some "19990101"
  /\ files (snd run) !! ledger_file (@SAVE_PATH rt) = Some (JsonFile m')
  /\ m' !! "md5:a" = Some "19990101".
Proof.
  intros rt w run m'.
  assert (files w !! ledger_file (@SAVE_PATH rt) = Some (JsonFile old_ledger)) as H1
    by (vm_compute; reflexivity).
  assert (old_ledger !! "md5:a" = Some "19990101") as H2 by (vm_compute; reflexivity).
  assert (files (snd run) !! ledger_file (@SAVE_PATH rt) = Some (JsonFile m')) as H3
    by (vm_compute; reflexivity).
  split; [exact H1|]. split; [exact H2|]. split; [exact H3|].
  exact (@ledger_entries_are_kept rt "/ws/A" w (fst run) (snd run) old_ledger m'
           "md5:a" "19990101" (surjective_pairing run) H1 H2 H3).
Defined.

Lemma rows_before_a_bad_record_are_not_recorded_witness :
  let rt := demo_runtime true in
  let seen : gmap string string := {[ "md5:z" := "19990101" ]} in
  let store := demo_store t_today "MIXED" in
  let w := demo_world {[ demo_ledger_path := JsonFile seen ]}
             {[ "/ws/A/state.vscdb" := store ]} in
  let run := @process_database rt "/ws/A" w in
  let pd := JArr [JObj [("text", JStr "a")]; JObj [("text", JNum 7)]] in
  @stored_prompts rt (Some store) = Ok pd
  /\ forallb wellformed_prompt (iter_items pd) = false
  /\ run = (Ok ("A", [row_a]), snd run)
  /\ files (snd run) !! ledger_file (@SAVE_PATH rt) = Some (JsonFile seen)
  /\ seen !! @md5_hexdigest rt (row_prompt row_a) = None.
Proof.
  intros rt seen store w run pd.
  assert (stores w !! path_join "/ws/A" STATE_DB_FILE = Some store) as H0
    by (vm_compute; reflexivity).
  assert (@stored_prompts rt (Some store) = Ok pd) as H1 by (vm_compute; reflexivity).
  assert (forallb wellformed_prompt (iter_items pd) = false) as H2
    by (vm_compute; reflexivity).
  assert (run = (Ok ("A", [row_a]), snd run)) as H3 by (vm_compute; reflexivity).
  assert (files (snd run) !! ledger_file (@SAVE_PATH rt) = Some (JsonFile seen)) as H4
    by (vm_compute; reflexivity).
  split; [exact H1|]. split; [exact H2|]. split; [exact H3|]. split; [exact H4|].
  exact (@rows_before_a_bad_record_are_not_recorded rt "/ws/A" w store pd "A" [row_a]
           (snd run) H0 H1 H2 H3 row_a seen (or_introl eq_refl) H4).
Defined.

Lemma store_without_prompts_touches_nothing_witness :
  let rt := demo_runtime true in
  let store := demo_store t_today "not json" in
  let w := demo_world {[ demo_ledger_path := RawFile "{" ]}
             {[ "/ws/A/state.vscdb" := store ]} in
  exists pn w', @process_database rt "/ws/A" w = (Ok (pn, []), w') /\ same_fs w w'.
Proof.
  intros rt store w.
  assert (stores w !! path_join "/ws/A" STATE_DB_FILE = Some store) as H0
    by (vm_compute; reflexivity).
  assert (forall pd, @stored_prompts rt (Some store) = Ok pd -> truthy pd = false) as H1.
  { intros pd Hpd. vm_compute in Hpd. injection Hpd as <-. reflexivity. }
  exact (@store_without_prompts_touches_nothing rt "/ws/A" w store H0 H1).
Defined.

Lemma rows_carry_the_capture_time_witness :
  let rt := demo_runtime true in
  let w := world_ab ∅ in
  let run := @process_database rt "/ws/A" w in
  let store := demo_store t_today "AB" in
  run = (Ok ("A", [row_a; mkRow "2024-01-01" "10:00:00" "b"]), snd run)
  /\ row_date row_a = iso_date (@fromtimestamp rt (st_mtime store))
  /\ row_time row_a = iso_time (@fromtimestamp rt (st_mtime store))
  /\ exists k, strftime_Ymd (@fromtimestamp rt (st_mtime store))
               = strftime_Ymd (@now_at rt k).
Proof.
  intros rt w run store.
  assert (stores w !! path_join "/ws/A" STATE_DB_FILE = Some store) as H0
    by (vm_compute; reflexivity).
  assert (st_mtime store <> 0%Z) as H1 by (vm_compute; discriminate).
  assert (run = (Ok ("A", [row_a; mkRow "2024-01-01" "10:00:00" "b"]), snd run)) as H2
    by (vm_compute; reflexivity).
  split; [exact H2|].
  exact (@rows_carry_the_capture_time rt "/ws/A" w store "A" _ (snd run) H0 H1 H2
           row_a (or_introl eq_refl)).
Defined.


Lemma rows_follow_the_store_witness :
  let rt := demo_runtime true in
  let store := demo_store t_today "AB" in
  let w := world_ab {[ demo_ledger_path := JsonFile old_ledger ]} in
  let run := @process_database rt "/ws/A" w in
  let pd := JArr [JObj [("text", JStr "a")]; JObj [("text", JStr "b")]] in
  run = (Ok ("A", [mkRow "2024-01-01" "10:00:00" "b"]), snd run)
  /\ omap prompt_text (iter_items pd) = ["a"; "b"]
  /\ map row_prompt [mkRow "2024-01-01" "10:00:00" "b"]
       `sublist_of` omap prompt_text (iter_items pd).
Proof.
  intros rt store w run pd.
  assert (stores w !! path_join "/ws/A" STATE_DB_FILE = Some store) as H0
    by (vm_compute; reflexivity).
  assert (@stored_prompts rt (Some store) = Ok pd) as H1 by (vm_compute; reflexivity).
  assert (run = (Ok ("A", [mkRow "2024-01-01" "10:00:00" "b"]), snd run)) as H2
    by (vm_compute; reflexivity).
  split; [exact H2|]. split; [reflexivity|].
  exact (@rows_follow_the_store rt "/ws/A" w store pd "A" _ (snd run) H0 H1 H2).
Defined.

Lemma rows_have_distinct_ids_witness :
  let rt := demo_runtime true in
  let run := @process_database rt "/ws/A" (world_ab ∅) in
  run = (Ok ("A", [row_a; mkRow "2024-01-01" "10:00:00" "b"]), snd run)
  /\ NoDup (map (fun r => @md5_hexdigest rt (row_prompt r))
              [row_a; mkRow "2024-01-01" "10:00:00" "b"]).
Proof.
  intros rt run.
  assert (run = (Ok ("A", [row_a; mkRow "2024-01-01" "10:00:00" "b"]), snd run)) as H1
    by (vm_compute; reflexivity).
  split; [exact H1|].
  exact (@rows_have_distinct_ids rt "/ws/A" (world_ab ∅) "A" _ (snd run) H1).
Defined.


Lemma stale_store_records_nothing_witness :
  let rt := demo_runtime true in
  let store := demo_store t_tomorrow "AB" in
  let w := demo_world {[ demo_ledger_path := JsonFile old_ledger ]}
             {[ "/ws/A/state.vscdb" := store ]} in
  let run := @process_database rt "/ws/A" w in
  files w !! ledger_file (@SAVE_PATH rt) = Some (JsonFile old_ledger)
  /\ files (snd run) !! ledger_file (@SAVE_PATH rt) = Some (JsonFile old_ledger)
  /\ (exists pn, fst run = Ok (pn, []))
  /\ forall m m',
       files w !! ledger_file (@SAVE_PATH rt) = Some (JsonFile m) ->
       files (snd run) !! ledger_file (@SAVE_PATH rt) = Some (JsonFile m') ->
       m' = m.
Proof.
  intros rt store w run.
  assert (stores w !! path_join "/ws/A" STATE_DB_FILE = Some store) as H0
    by (vm_compute; reflexivity).
  assert (st_mtime store <> 0%Z) as H1 by (vm_compute; discriminate).
  assert (forall k, strftime_Ymd (@fromtimestamp rt (st_mtime store))
                    <> strftime_Ymd (@now_at rt k)) as H2
    by (intros k; vm_compute; discriminate).
  split; [vm_compute; reflexivity|]. split; [vm_compute; reflexivity|].
  exact (@stale_store_records_nothing rt "/ws/A" w store (fst run) (snd run)
           H0 H1 H2 (surjective_pairing run)).
Defined.

Lemma rows_are_dated_the_day_of_the_run_witness :
  let rt := demo_runtime true in
  let run := @process_database rt "/ws/A" (world_ab ∅) in
  let rows := [row_a; mkRow "2024-01-01" "10:00:00" "b"] in
  run = (Ok ("A", rows), snd run)
  /\ exists k, forall r, In r rows ->
       is_iso_date (row_date r) = true
       /\ str_replace "-" "" (row_date r) = strftime_Ymd (@now_at rt k).
Proof.
  intros rt run rows.
  assert (run = (Ok ("A", rows), snd run)) as H1 by (vm_compute; reflexivity).
  split; [exact H1|].
  exact (@rows_are_dated_the_day_of_the_run rt "/ws/A" (world_ab ∅) "A" rows (snd run) H1).
Defined.

Lemma saved_ledger_is_loaded_back_witness :
  let rt := demo_runtime true in
  let w := world_ready ∅ ∅ in
  exists w1,
    @save_processed_prompts rt old_ledger (@SAVE_PATH rt) w = (Ok tt, w1)
    /\ @load_processed_prompts rt (@SAVE_PATH rt) w1 = (Ok old_ledger, w1).
Proof.
  intros rt w.
  assert (@save_root_ready rt w) as H1.
  { split; [vm_compute; reflexivity|]. split; [vm_compute; reflexivity|].
    split; [apply (proj1 (bool_decide_eq_false _)); vm_compute; reflexivity|].
    split; [vm_compute; reflexivity|].
    apply (proj1 (bool_decide_eq_true _)). vm_compute; reflexivity. }
  exact (@saved_ledger_is_loaded_back rt old_ledger w H1).
Defined.

Lemma ledger_records_exactly_the_rows_witness :
  let rt := demo_runtime true in
  let store := demo_store t_today "AB" in
  let w := world_ready {[ demo_ledger_path := JsonFile old_ledger ]}
             {[ "/ws/A/state.vscdb" := store ]} in
  let run := @process_database rt "/ws/A" w in
  let rows := [mkRow "2024-01-01" "10:00:00" "b"] in
  run = (Ok ("A", rows), snd run)
  /\ exists k ledger',
       files (snd run) !! ledger_file (@SAVE_PATH rt) = Some (JsonFile ledger')
       /\ forall id,
            ledger' !! id =
              match old_ledger !! id with
              | Some v => Some v
              | None =>
                  if existsb (fun r => String.eqb (@md5_hexdigest rt (row_prompt r)) id) rows
                  then Some (strftime_Ymd (@now_at rt k)) else None
              end.
Proof.
  intros rt store w run rows.
  assert (stores w !! path_join "/ws/A" STATE_DB_FILE = Some store) as H0
    by (vm_compute; reflexivity).
  assert (forall pd, @stored_prompts rt (Some store) = Ok pd ->
            forallb wellformed_prompt (iter_items pd) = true) as H1.
  { intros pd Hpd. vm_compute in Hpd. injection Hpd as <-. reflexivity. }
  assert (@save_root_ready rt w) as H2.
  { split; [vm_compute; reflexivity|]. split; [vm_compute; reflexivity|].
    split; [apply (proj1 (bool_decide_eq_false _)); vm_compute; reflexivity|].
    split; [vm_compute; reflexivity|].
    apply (proj1 (bool_decide_eq_true _)). vm_compute; reflexivity. }
  assert (files w !! ledger_file (@SAVE_PATH rt) = Some (JsonFile old_ledger)) as H3
    by (vm_compute; reflexivity).
  assert (run = (Ok ("A", rows), snd run)) as H4 by (vm_compute; reflexivity).
  split; [exact H4|].
  exact (@ledger_records_exactly_the_rows rt "/ws/A" w store old_ledger "A" rows
           (snd run) H0 H1 H2 H3 H4).
Defined.


Lemma csv_fallback_at_base_path_witness :
  let rt := demo_runtime false in
  let base := "/out/p/p_20240101_prompt" in
  let df := frame_of_rows [row_a] in
  let w := world_table df in
  exists w',
    @write_frame rt (base +:+ ".xlsx") df w = (Ok (Some (base +:+ ".csv")), w')
    /\ files w' = <[ base +:+ ".csv" := CsvFile df ]> (files w).
Proof.
  intros rt base df w.
  refine (@csv_fallback_at_base_path rt base df w _ _ _ _).
  - vm_compute; reflexivity.
  - reflexivity.
  - apply (proj1 (bool_decide_eq_false _)). vm_compute; reflexivity.
  - apply (proj1 (bool_decide_eq_true _)). vm_compute; reflexivity.
Defined.




Lemma unreadable_table_is_left_alone_witness :
  let rt := demo_runtime true in
  let w := mkWorld {[ table_path := RawFile "not a workbook" ]}
             {[ "/"; "/out"; "/out/p" ]} ∅ ∅ 0 [] in
  exists w', @save_to_excel rt "p" [row_a] "/out" w = (Ok None, w')
             /\ files w' = files w.
Proof.
  intros rt w.
  refine (@unreadable_table_is_left_alone rt "p" [row_a] "/out" w
            (RawFile "not a workbook") _ _).
  - vm_compute; reflexivity.
  - discriminate.
Defined.


Lemma reported_path_is_the_dated_table_witness :
  let rt := demo_runtime false in
  let run := @save_to_excel rt "p" [row_a] "/out" world_out in
  run = (Ok (Some "/out/p/p_20240101_prompt.csv"), snd run)
  /\ ("/out/p/p_20240101_prompt.csv" = table_path
      \/ "/out/p/p_20240101_prompt.csv" = str_replace ".xlsx" ".csv" table_path).
Proof.
  intros rt run.
  assert (run = (Ok (Some "/out/p/p_20240101_prompt.csv"), snd run)) as H1
    by (vm_compute; reflexivity).
  split; [exact H1|].
  exact (@reported_path_is_the_dated_table rt "p" [row_a] "/out" world_out
           "/out/p/p_20240101_prompt.csv" (snd run) H1).
Defined.
